(** * Hand detection and report rendering of the poker podcast analyser

    A shallow embedding of [PokerHandAnalyzer.detect_hands] and
    [PokerHandAnalyzer.generate_report] (src/cli.py), with the properties
    the specification states about them, and of [sanitize_filename],
    [fetch_rss_episodes] and the file name of [download_audio], with
    properties read off the code.

    Conventions of the embedding.
    - A Python [str] is a [string]; every character is one code point, and
      the embedding covers the code points 0..255.
    - A Python [int] counter that starts at 0 and is only incremented is a
      [nat].
    - A Python [float] is the rational number it denotes ([Q]); operations
      that round do so through [F64.rnd].  Infinities, NaN and the exponent
      range are outside the embedding: timestamps and scores lie far inside
      the range. *)

From Stdlib Require Import List String Ascii Bool Arith NArith ZArith QArith.
From Stdlib Require Import Qpower Qround Qabs Qminmax Lia Sorted Permutation.
From Stdlib Require Import DecimalString.
Import ListNotations.

Local Close Scope Q_scope.
Local Open Scope string_scope.
Local Open Scope list_scope.

(* ================================================================== *)
(** ** Python string operations *)

Module PyStr.

Definition nl : string := String (ascii_of_nat 10) EmptyString.

Definition in_range (lo hi : N) (c : ascii) : bool :=
  let n := N_of_ascii c in ((lo <=? n) && (n <=? hi))%N.

(** [str.lower] on one code point below 256: A-Z, and the Latin-1
    capitals 0xC0..0xDE without the multiplication sign 0xD7. *)
Definition lower_char (c : ascii) : ascii :=
  if in_range 65 90 c
     || (in_range 192 222 c && negb (N_of_ascii c =? 215)%N)
  then ascii_of_N (N_of_ascii c + 32)
  else c.

Fixpoint lower (s : string) : string :=
  match s with
  | EmptyString => EmptyString
  | String c t => String (lower_char c) (lower t)
  end.

(** [\d] of [re] and [str.isdigit] below 256. *)
Definition isdigit (c : ascii) : bool := in_range 48 57 c.

(** [\s] of [re] and [str.isspace] below 256. *)
Definition isspace (c : ascii) : bool :=
  in_range 9 13 c || in_range 28 32 c
  || (N_of_ascii c =? 133)%N || (N_of_ascii c =? 160)%N.

(** [sep.join(l)] *)
Fixpoint join (sep : string) (l : list string) : string :=
  match l with
  | [] => EmptyString
  | [x] => x
  | x :: t => x ++ sep ++ join sep t
  end.

(** [needle in hay] *)
Fixpoint contains (needle hay : string) : bool :=
  if prefix needle hay then true
  else match hay with
       | EmptyString => false
       | String _ t => contains needle t
       end.

Fixpoint lstrip (s : string) : string :=
  match s with
  | String c t => if isspace c then lstrip t else s
  | EmptyString => EmptyString
  end.

Fixpoint rstrip (s : string) : string :=
  match s with
  | EmptyString => EmptyString
  | String c t =>
      match rstrip t with
      | EmptyString => if isspace c then EmptyString else String c EmptyString
      | t' => String c t'
      end
  end.

(** [s.strip()] *)
Definition strip (s : string) : string := rstrip (lstrip s).

(** [any(f(x) for x in l)] *)
Definition any {A} (f : A -> bool) (l : list A) : bool := existsb f l.

(** A word: not empty, and without a space. *)
Definition spaceless (w : string) : bool :=
  forallb (fun c => negb (Ascii.eqb c " ")) (list_ascii_of_string w).

Definition is_word (w : string) : bool :=
  negb (String.eqb w "") && spaceless w.

End PyStr.

(* ================================================================== *)
(** ** The fragment of [re] the pattern catalogue is written in

    Backtracking matching with Python's priorities: alternatives are tried
    left to right, [?], [*] and [+] are greedy.  The catalogue has no
    anchors, no capturing groups and no flags, and it repeats single
    character classes only, so [Star] and [Plus] take a class. *)

Module Re.

Inductive cset : Type :=
| Lit (c : ascii)   (* the character itself *)
| Digit             (* \d *)
| Space             (* \s *)
| Dot.              (* .  : anything but a newline *)

Inductive regex : Type :=
| Eps
| Chr (c : cset)
| Cat (r1 r2 : regex)
| Alt (r1 r2 : regex)   (* r1|r2 *)
| Opt (r : regex)       (* (?:r)? *)
| Star (c : cset)       (* c* *)
| Plus (c : cset).      (* c+ *)

Definition accepts (cs : cset) (c : ascii) : bool :=
  match cs with
  | Lit d => Ascii.eqb c d
  | Digit => PyStr.isdigit c
  | Space => PyStr.isspace c
  | Dot => negb (Ascii.eqb c (ascii_of_nat 10))
  end.

Definition or_else {A} (x y : option A) : option A :=
  match x with Some _ => x | None => y end.

(** Greedy repetition of a class: take as many characters as possible,
    give one back at a time while the rest of the pattern fails. *)
Fixpoint star (cs : cset) (s : string) (k : string -> option string)
  : option string :=
  match s with
  | String c t => if accepts cs c then or_else (star cs t k) (k s) else k s
  | EmptyString => k s
  end.

(** [run r s k]: match [r] at the head of [s], then continue with [k] on
    what is left; [None] is failure, which makes the caller backtrack. *)
Fixpoint run (r : regex) (s : string) (k : string -> option string)
  : option string :=
  match r with
  | Eps => k s
  | Chr cs =>
      match s with
      | String c t => if accepts cs c then k t else None
      | EmptyString => None
      end
  | Cat r1 r2 => run r1 s (fun s' => run r2 s' k)
  | Alt r1 r2 => or_else (run r1 s k) (run r2 s k)
  | Opt r1 => or_else (run r1 s k) (k s)
  | Star cs => star cs s k
  | Plus cs =>
      match s with
      | String c t => if accepts cs c then star cs t k else None
      | EmptyString => None
      end
  end.

(** One attempt of the engine at the head of [s]; the result is what is
    left after the match.  With [must_advance] an empty match is
    refused. *)
Definition match_here (r : regex) (s : string) (must_advance : bool)
  : option string :=
  run r s (fun rest =>
             if must_advance && (length rest =? length s)%nat
             then None else Some rest).

(** [re.search(r, s)] as a truth value. *)
Fixpoint search (r : regex) (s : string) : bool :=
  match match_here r s false with
  | Some _ => true
  | None =>
      match s with
      | String _ t => search r t
      | EmptyString => false
      end
  end.

(** [len(re.findall(r, s))] for a pattern without groups: the matches are
    found left to right and do not overlap.  [skip] counts the characters
    of the current match that are still to be passed.  After an empty
    match the engine looks again at the same place for a match that is
    not empty. *)
Fixpoint count_from (r : regex) (s : string) (skip : nat) : nat :=
  let next (k : nat) : nat :=
    match s with
    | String _ t => count_from r t k
    | EmptyString => 0
    end in
  match skip with
  | S k => next k
  | O =>
      match match_here r s false with
      | None => next 0
      | Some rest =>
          match length s - length rest with
          | S n => S (next n)
          | O =>
              S (match match_here r s true with
                 | Some rest' => S (next (length s - length rest' - 1))
                 | None => next 0
                 end)
          end
      end
  end.

Definition findall_len (r : regex) (s : string) : nat := count_from r s 0.

(** *** Writing patterns *)

Fixpoint lit (s : string) : regex :=
  match s with
  | EmptyString => Eps
  | String c EmptyString => Chr (Lit c)
  | String c t => Cat (Chr (Lit c)) (lit t)
  end.

Fixpoint alt (rs : list regex) : regex :=
  match rs with
  | [] => Eps
  | [r] => r
  | r :: t => Alt r (alt t)
  end.

Fixpoint seq (rs : list regex) : regex :=
  match rs with
  | [] => Eps
  | [r] => r
  | r :: t => Cat r (seq t)
  end.

(** [(?:w1|w2|...)] over literal words *)
Definition words (ws : list string) : regex := alt (map lit ws).

End Re.

(* ================================================================== *)
(** ** Binary64 arithmetic on the rationals the floats denote *)

Module F64.

Local Open Scope Q_scope.

(** Nearest integer, ties to the even one. *)
Definition round_half_even (q : Q) : Z :=
  let f := Qfloor q in
  match Qcompare (q - inject_Z f) (1 # 2) with
  | Lt => f
  | Gt => (f + 1)%Z
  | Eq => if Z.even f then f else (f + 1)%Z
  end.

(** The exponent [e] with [2^e <= q < 2^(e+1)], for [0 < q]. *)
Definition ilog2 (q : Q) : Z :=
  let e := (Z.log2 (Qnum q) - Z.log2 (Zpos (Qden q)))%Z in
  if Qle_bool (2 ^ e) q then e else (e - 1)%Z.

(** Rounding to a significand of 53 bits, ties to even. *)
Definition rnd (q : Q) : Q :=
  match Qnum q with
  | Z0 => 0
  | Zpos _ =>
      let e := ilog2 q in
      inject_Z (round_half_even (q * 2 ^ (52 - e))) * 2 ^ (e - 52)
  | Zneg _ =>
      let e := ilog2 (- q) in
      - (inject_Z (round_half_even (- q * 2 ^ (52 - e))) * 2 ^ (e - 52))
  end.

(** [float(n)] for an [int] *)
Definition of_int (n : Z) : Q := rnd (inject_Z n).

Definition add (x y : Q) : Q := rnd (x + y).
Definition sub (x y : Q) : Q := rnd (x - y).

(** [x / y]; [None] is ZeroDivisionError. *)
Definition div (x y : Q) : option Q :=
  if Qeq_bool y 0 then None else Some (rnd (x / y)).

(** [int(x)]: truncation towards zero. *)
Definition to_int (x : Q) : Z := Z.quot (Qnum x) (Zpos (Qden x)).

(** C's [fmod]: exact, with the sign of [x]. *)
Definition fmod (x y : Q) : Q := x - y * inject_Z (to_int (x / y)).

Definition is_neg (x : Q) : bool := negb (Qle_bool 0 x).

(** [x % y] on floats, [y] not zero (CPython's float_rem): [fmod], moved
    into the divisor's sign by adding the divisor. *)
Definition mod_ (x y : Q) : Q :=
  let m := fmod x y in
  if negb (Qeq_bool m 0) && negb (Bool.eqb (is_neg y) (is_neg m))
  then add m y else m.

(** [x // y] on floats, [y] not zero (CPython's float_divmod). *)
Definition floordiv (x y : Q) : Q :=
  let m := fmod x y in
  let d := rnd (sub x m / y) in
  let d := if negb (Qeq_bool m 0) && negb (Bool.eqb (is_neg y) (is_neg m))
           then sub d 1 else d in
  let f := inject_Z (Qfloor d) in
  if Qeq_bool d 0 then 0
  else if negb (Qle_bool (d - f) (1 # 2)) then add f 1 else f.

(** [min(x, y)] *)
Definition min (x y : Q) : Q := if Qle_bool x y then x else y.

(** The float nearest to the decimal literal [125.7]. *)
Definition lit_125_7 : Q := 8845351143132365 # 70368744177664.

End F64.

(* ================================================================== *)
(** ** Formatting numbers as the f-strings do *)

Module Fmt.

(** [f"{n}"] for an [int] *)
Definition int (n : Z) : string := NilZero.string_of_int (Z.to_int n).

Definition zeros (n : nat) : string := concat "" (repeat "0" n).

(** [f"{n:02d}"]: at least two characters, zeros after the sign. *)
Definition int_02d (n : Z) : string :=
  let digits := int (Z.abs n) in
  if (n <? 0)%Z
  then "-" ++ zeros (1 - length digits) ++ digits
  else zeros (2 - length digits) ++ digits.

(** [f"{x:.<p>f}"]: the exact value rounded to [p] decimals, ties to
    even. *)
Definition fixed (p : nat) (x : Q) : string :=
  let scale := (10 ^ Z.of_nat p)%Z in
  let n := F64.round_half_even (Qabs x * inject_Z scale)%Q in
  let frac := int (n mod scale) in
  (if F64.is_neg x then "-" else "")
    ++ int (n / scale)
    ++ match p with
       | O => ""
       | _ => "." ++ zeros (p - length frac) ++ frac
       end.

End Fmt.

(* ================================================================== *)
(** ** The transcript and the detected hands *)

(** One entry of [transcript_data["segments"]]. *)
Record Segment : Type := mkSegment {
  seg_text : string;   (* "text" *)
  seg_start : Q;       (* "start" *)
  seg_end : Q          (* "end" *)
}.

(** [transcript_data], as [transcribe_audio] builds it. *)
Record Transcript : Type := mkTranscript {
  file : string;
  duration_s : Q;       (* "duration" *)
  language : string;
  full_text : string;   (* "text" *)
  segments : list Segment;
  processed_at : string
}.

(** The ["scores"] entry of a detected hand. *)
Record Scores : Type := mkScores {
  hand_start : nat;
  cards : nat;
  actions : nat;
  context : nat
}.

(** One entry of [hands_detected]. *)
Record Hand : Type := mkHand {
  timestamp : Q;
  duration : Q;
  text : string;
  confidence : Q;
  scores : Scores
}.

(* ================================================================== *)
(** ** The console [print] writes to

    [sys.stdout] is a text stream of the process, which any code may
    replace or close.  What is printed is a text of code points, the check
    mark of the messages being U+2713. *)

Module Console.

(** [sys.stdout], as far as [print] uses it: whether the stream is closed,
    the code points its encoding has ([sys.stdout.encoding]), whether its
    error handler raises on the others ([strict], against [replace] and
    the like), and the texts written so far. *)
Record Stdout : Type := mkStdout {
  closed : bool;
  encodable : N -> bool;
  strict : bool;
  written : list (list N)
}.

Inductive exn : Type :=
| ValueError            (* I/O operation on closed file *)
| UnicodeEncodeError.

Inductive outcome (A : Type) : Type :=
| Returns (a : A)
| Raises (e : exn).

Arguments Returns {A} a.
Arguments Raises {A} e.

(** The code points of a text below 256. *)
Definition code_points (s : string) : list N :=
  map N_of_ascii (list_ascii_of_string s).

(** [sys.stdout.write(text)]: nothing is written when it raises. *)
Definition write (out : Stdout) (text : list N) : outcome unit * Stdout :=
  if closed out then (Raises ValueError, out)
  else if strict out && negb (forallb (encodable out) text)
       then (Raises UnicodeEncodeError, out)
       else (Returns tt,
             {| closed := closed out;
                encodable := encodable out;
                strict := strict out;
                written := written out ++ [text] |}).

Definition newline : list N := [10%N].

(** [print(text)]: the text, then the end of the line. *)
Definition print (out : Stdout) (text : list N) : outcome unit * Stdout :=
  match write out text with
  | (Raises e, out') => (Raises e, out')
  | (Returns _, out') => write out' newline
  end.

(** The stream takes the line without raising. *)
Definition printable (out : Stdout) (text : list N) : bool :=
  negb (closed out)
  && (negb (strict out) || forallb (encodable out) (text ++ newline)).

(** UTF-8: every code point but the surrogates. *)
Definition utf8 (cp : N) : bool :=
  ((cp <? 55296) || ((57343 <? cp) && (cp <=? 1114111)))%N.

(** ASCII *)
Definition ascii_only (cp : N) : bool := (cp <? 128)%N.

(** A terminal in UTF-8, and a stream in ASCII, both strict as a standard
    output is. *)
Definition utf8_terminal : Stdout :=
  {| closed := false; encodable := utf8; strict := true; written := [] |}.

Definition ascii_stream : Stdout :=
  {| closed := false; encodable := ascii_only; strict := true;
     written := [] |}.

End Console.

(* ================================================================== *)
(** ** [detect_hands] *)

Module Detector.

Import Re.

(** [w] followed by an optional [s], as in [comes?] *)
Definition opt_s (w : string) : regex := Cat (lit w) (Opt (lit "s")).

(** [all.?in] *)
Definition all_in : regex := seq [lit "all"; Opt (Chr Dot); lit "in"].

Definition hand_start_patterns : list regex :=
  [ (* (?:i|we|he|she|they|villain|hero|player)\s+
       (?:have|had|got dealt|was dealt|held|pick up)\s+
       (?:pocket|hole cards?) *)
    seq [ words ["i"; "we"; "he"; "she"; "they"; "villain"; "hero"; "player"];
          Plus Space;
          words ["have"; "had"; "got dealt"; "was dealt"; "held"; "pick up"];
          Plus Space;
          alt [lit "pocket"; opt_s "hole card"] ];
    (* (?:with|holding|dealt)\s+(?:pocket|ace|king|queen|jack|\d+) *)
    seq [ words ["with"; "holding"; "dealt"];
          Plus Space;
          alt [lit "pocket"; lit "ace"; lit "king"; lit "queen"; lit "jack";
               Plus Digit] ];
    (* (?:preflop|pre-flop).*(?:raise|call|fold|all.?in) *)
    seq [ words ["preflop"; "pre-flop"];
          Star Dot;
          alt [lit "raise"; lit "call"; lit "fold"; all_in] ];
    (* (?:flop|turn|river)\s+(?:comes?|brings?|is|was) *)
    seq [ words ["flop"; "turn"; "river"];
          Plus Space;
          alt [opt_s "come"; opt_s "bring"; lit "is"; lit "was"] ];
    (* board\s+(?:comes?|is|was|reads?) *)
    seq [ lit "board";
          Plus Space;
          alt [opt_s "come"; lit "is"; lit "was"; opt_s "read"] ];
    (* hand\s+(?:analysis|breakdown|review|discussion) *)
    seq [ lit "hand";
          Plus Space;
          words ["analysis"; "breakdown"; "review"; "discussion"] ];
    (* (?:let's|we'll|i'll)\s+
       (?:talk about|discuss|analyze|break down|look at)\s+
       (?:this|a|the)\s+hand *)
    seq [ words ["let's"; "we'll"; "i'll"];
          Plus Space;
          words ["talk about"; "discuss"; "analyze"; "break down"; "look at"];
          Plus Space;
          words ["this"; "a"; "the"];
          Plus Space;
          lit "hand" ] ].

(** [(?:A|K|Q|J|T|\d)]: the letters are capitals in the source, and the
    patterns are compiled without flags. *)
Definition rank : regex :=
  alt [lit "A"; lit "K"; lit "Q"; lit "J"; lit "T"; Chr Digit].

(** [(?:s|h|d|c)?] *)
Definition suit : regex := Opt (words ["s"; "h"; "d"; "c"]).

Definition card_patterns : list regex :=
  [ (* (?:ace|king|queen|jack|\d+)
       (?:\s+of\s+(?:hearts|diamonds|clubs|spades))? *)
    seq [ alt [lit "ace"; lit "king"; lit "queen"; lit "jack"; Plus Digit];
          Opt (seq [ Plus Space; lit "of"; Plus Space;
                     words ["hearts"; "diamonds"; "clubs"; "spades"] ]) ];
    (* pocket\s+(?:aces|kings|queens|jacks|tens|nines|eights|sevens|
                   sixes|fives|fours|threes|twos|deuces) *)
    seq [ lit "pocket";
          Plus Space;
          words ["aces"; "kings"; "queens"; "jacks"; "tens"; "nines";
                 "eights"; "sevens"; "sixes"; "fives"; "fours"; "threes";
                 "twos"; "deuces"] ];
    (* (?:suited|offsuit)\s+(?:ace|king|queen|jack) *)
    seq [ words ["suited"; "offsuit"];
          Plus Space;
          words ["ace"; "king"; "queen"; "jack"] ];
    (* (?:A|K|Q|J|T|\d)(?:s|h|d|c)?\s*(?:A|K|Q|J|T|\d)(?:s|h|d|c)? *)
    seq [ rank; suit; Star Space; rank; suit ] ].

Definition action_patterns : list regex :=
  [ (* (?:raises?|calls?|folds?|checks?|bets?|all.?in|shoves?|jams?)
       \s+(?:to\s+)?\$?\d+ *)
    seq [ alt [opt_s "raise"; opt_s "call"; opt_s "fold"; opt_s "check";
               opt_s "bet"; all_in; opt_s "shove"; opt_s "jam"];
          Plus Space;
          Opt (Cat (lit "to") (Plus Space));
          Opt (lit "$");
          Plus Digit ];
    (* (?:three|3).?bet(?:s|ting)? *)
    seq [ words ["three"; "3"]; Opt (Chr Dot); lit "bet";
          Opt (words ["s"; "ting"]) ];
    (* (?:four|4).?bet(?:s|ting)? *)
    seq [ words ["four"; "4"]; Opt (Chr Dot); lit "bet";
          Opt (words ["s"; "ting"]) ];
    (* check.?raise *)
    seq [ lit "check"; Opt (Chr Dot); lit "raise" ];
    (* continuation\s+bet|c.?bet *)
    Alt (seq [lit "continuation"; Plus Space; lit "bet"])
        (seq [lit "c"; Opt (Chr Dot); lit "bet"]) ].

Definition context_words : list string :=
  ["preflop"; "flop"; "turn"; "river"; "showdown"].

(** The loop over [hand_start_patterns]: 2 for each pattern found. *)
Definition hand_start_score_of (patterns : list regex) (segment_lower : string)
  : nat :=
  fold_left (fun score pattern =>
               if search pattern segment_lower then score + 2 else score)
            patterns 0.

(** The loop over [card_patterns]: every match of every pattern. *)
Definition card_score_of (patterns : list regex) (segment_lower : string)
  : nat :=
  fold_left (fun score pattern => score + findall_len pattern segment_lower)
            patterns 0.

(** The loop over [action_patterns]: 1 for each pattern found. *)
Definition action_score_of (patterns : list regex) (segment_lower : string)
  : nat :=
  fold_left (fun score pattern =>
               if search pattern segment_lower then score + 1 else score)
            patterns 0.

Definition hand_start_score := hand_start_score_of hand_start_patterns.
Definition card_score := card_score_of card_patterns.
Definition action_score := action_score_of action_patterns.

(** [segments[j]["text"]]; the loop only asks for indices in range. *)
Definition text_at (segs : list Segment) (j : nat) : list string :=
  match nth_error segs j with
  | Some s => [seg_text s]
  | None => []
  end.

(** The texts of the segment before, the segment and the segment after. *)
Definition context_window (segs : list Segment) (i : nat) (segment : Segment)
  : list string :=
  (if (0 <? i)%nat then text_at segs (i - 1) else [])
    ++ [seg_text segment]
    ++ (if (i <? List.length segs - 1)%nat then text_at segs (i + 1) else []).

Definition context_score (segs : list Segment) (i : nat) (segment : Segment)
  : nat :=
  let context_text :=
    PyStr.lower (PyStr.join " " (context_window segs i segment)) in
  if PyStr.any (fun word => PyStr.contains word context_text) context_words
  then 1 else 0.

(** The four scores of segment [i]. *)
Definition score_segment (segs : list Segment) (i : nat) (segment : Segment)
  : Scores :=
  let segment_lower := PyStr.lower (seg_text segment) in
  {| hand_start := hand_start_score segment_lower;
     cards := card_score segment_lower;
     actions := action_score segment_lower;
     context := context_score segs i segment |}.

Definition total_score (sc : Scores) : nat :=
  hand_start sc + cards sc + actions sc + context sc.

(** [total_score >= 3 and (card_score >= 1 or hand_start_score >= 1)] *)
Definition substantial (sc : Scores) : bool :=
  (3 <=? total_score sc)%nat
  && ((1 <=? cards sc)%nat || (1 <=? hand_start sc)%nat).

(** [min(total_score / 8.0, 1.0)]: the division of two floats cannot
    fail here, the divisor being 8.0. *)
Definition confidence_of (total : nat) : Q :=
  F64.min (F64.rnd (F64.of_int (Z.of_nat total) / 8)) 1.

(** The dictionary appended for a segment that passes. *)
Definition hand_of (segment : Segment) (sc : Scores) : Hand :=
  {| timestamp := seg_start segment;
     duration := F64.sub (seg_end segment) (seg_start segment);
     text := seg_text segment;
     confidence := confidence_of (total_score sc);
     scores := sc |}.

(** The body of the loop: the new value of [hands_detected]. *)
Definition visit (segs : list Segment) (hands_detected : list Hand)
           (entry : nat * Segment) : list Hand :=
  let (i, segment) := entry in
  let sc := score_segment segs i segment in
  if substantial sc then hands_detected ++ [hand_of segment sc]
  else hands_detected.

(** [enumerate(l)] *)
Definition enumerate {A} (l : list A) : list (nat * A) :=
  combine (List.seq 0 (List.length l)) l.

(** [hands_detected] when the loop is over, before it is sorted. *)
Definition collect (segs : list Segment) : list Hand :=
  fold_left (visit segs) (enumerate segs) [].

(** [list.sort(key=..., reverse=True)] is the interpreter's: a stable
    sort into descending keys, in which equal keys keep the order they
    had.  It is taken as a stable insertion sort. *)
Fixpoint insert_desc {A} (key : A -> Q) (x : A) (l : list A) : list A :=
  match l with
  | [] => [x]
  | y :: t =>
      if Qle_bool (key y) (key x) then x :: y :: t
      else y :: insert_desc key x t
  end.

Definition sort_desc {A} (key : A -> Q) (l : list A) : list A :=
  fold_right (insert_desc key) [] l.

Definition detect_hands (transcript_data : Transcript) : list Hand :=
  sort_desc confidence (collect (segments transcript_data)).

(** *** Notions the properties are stated with *)

(** What the loop appends for one entry of [enumerate(segments)]. *)
Definition promote (segs : list Segment) (entry : nat * Segment)
  : list Hand :=
  let sc := score_segment segs (fst entry) (snd entry) in
  if substantial sc then [hand_of (snd entry) sc] else [].

(** Segment [i] of the transcript is promoted: its hand is returned. *)
Definition promoted (t : Transcript) (i : nat) (segment : Segment) : Prop :=
  In (hand_of segment (score_segment (segments t) i segment))
     (detect_hands t).

(** Descending order of the keys. *)
Definition desc {A} (key : A -> Q) (x y : A) : Prop := (key y <= key x)%Q.

Definition same_key {A} (key : A -> Q) (c : Q) (x : A) : bool :=
  Qeq_bool (key x) c.

(** The texts next to segment [i] in its context window. *)
Definition neighbours (segs : list Segment) (i : nat) : list string :=
  (if (0 <? i)%nat then text_at segs (i - 1) else [])
    ++ (if (i <? List.length segs - 1)%nat then text_at segs (i + 1) else []).

(** The text has one of the context words in it, in any case. *)
Definition mentions_context (piece : string) : bool :=
  PyStr.any (fun word => PyStr.contains word (PyStr.lower piece))
            context_words.

(** The analyser object: its only attribute is the loaded model. *)
Record PokerHandAnalyzer : Type := mkAnalyzer {
  whisper_model : string
}.

(** U+2713, the check mark the messages start with. *)
Definition check_mark : N := 10003%N.

(** [f"<check mark> Detected {len(hands_detected)} potential poker hands"] *)
Definition summary_line (count : nat) : list N :=
  check_mark
    :: Console.code_points
         (" Detected " ++ Fmt.int (Z.of_nat count) ++ " potential poker hands").

(** The method with its effect: what the call does, a value returned or
    an exception raised, and the console after the call.  The hands are
    computed first and the line is printed before they are returned. *)
Definition detect_hands_call (self : PokerHandAnalyzer)
           (transcript_data : Transcript) (stdout : Console.Stdout)
  : Console.outcome (list Hand) * Console.Stdout :=
  let hands_detected := detect_hands transcript_data in
  match Console.print stdout (summary_line (List.length hands_detected)) with
  | (Console.Raises e, stdout') => (Console.Raises e, stdout')
  | (Console.Returns _, stdout') => (Console.Returns hands_detected, stdout')
  end.

End Detector.

(* ================================================================== *)
(** ** The text [generate_report] writes

    [report_content] is the string the method builds and writes to
    [output_file]; the choice of the path and the write are not embedded.
    [None] stands for an exception. *)

Module Report.

Import PyStr.

(** [sum(h['confidence'] for h in hands_detected)]: additions from the
    left, starting at the integer 0. *)
Definition sum_confidence (hands_detected : list Hand) : Q :=
  fold_left (fun acc h => F64.add acc (confidence h)) hands_detected 0%Q.

Definition avg_confidence (hands_detected : list Hand) : option Q :=
  match hands_detected with
  | [] => Some 0%Q
  | _ => F64.div (sum_confidence hands_detected)
                 (F64.of_int (Z.of_nat (List.length hands_detected)))
  end.

Definition head (transcript_data : Transcript) (count : nat) (avg : Q)
  : string :=
  "# Poker Hands Analysis" ++ nl
  ++ "        " ++ nl
  ++ "**Source:** " ++ file transcript_data ++ nl
  ++ "**Duration:** " ++ Fmt.fixed 1 (duration_s transcript_data)
  ++ " seconds" ++ nl
  ++ "**Language:** " ++ language transcript_data ++ nl
  ++ "**Processed:** " ++ processed_at transcript_data ++ nl
  ++ nl
  ++ "## Summary" ++ nl
  ++ "- **Total hands detected:** " ++ Fmt.int (Z.of_nat count) ++ nl
  ++ "- **Average confidence:** " ++ Fmt.fixed 2 avg ++ nl
  ++ nl
  ++ "## Detected Hands" ++ nl
  ++ nl.

(** What one turn of the loop appends, for the hand of rank [i]. *)
Definition entry (i : nat) (hand : Hand) : string :=
  let timestamp_min := F64.to_int (F64.floordiv (timestamp hand) 60) in
  let timestamp_sec := F64.to_int (F64.mod_ (timestamp hand) 60) in
  "### Hand " ++ Fmt.int (Z.of_nat i) ++ nl
  ++ "**Timestamp:** " ++ Fmt.int timestamp_min ++ ":"
  ++ Fmt.int_02d timestamp_sec ++ nl
  ++ "**Confidence:** " ++ Fmt.fixed 2 (confidence hand) ++ nl
  ++ "**Text:** " ++ strip (text hand) ++ nl
  ++ nl
  ++ "---" ++ nl
  ++ nl.

(** The loop over [enumerate(hands_detected, 1)], from rank [i] on. *)
Fixpoint entries (i : nat) (hands : list Hand) (report_content : string)
  : string :=
  match hands with
  | [] => report_content
  | hand :: rest => entries (S i) rest (report_content ++ entry i hand)
  end.

Definition report_content (transcript_data : Transcript)
           (hands_detected : list Hand) : option string :=
  match avg_confidence hands_detected with
  | None => None
  | Some avg =>
      Some (entries 1 hands_detected
              (head transcript_data (List.length hands_detected) avg))
  end.

(** [minutes:seconds] as the specification words it:
    [int(timestamp // 60)], a colon, [int(timestamp % 60)] on two
    digits. *)
Definition minutes_seconds (ts : Q) : string :=
  Fmt.int (F64.to_int (F64.floordiv ts 60)) ++ ":"
  ++ Fmt.int_02d (F64.to_int (F64.mod_ ts 60)).

End Report.

(* ================================================================== *)
(** ** The transcript of the specification's scenario *)

Module Scenario.

Definition seg1 : Segment := mkSegment "I had pocket aces preflop" 0 5.
Definition seg2 : Segment := mkSegment "he raises to 200" 5 8.
Definition seg3 : Segment := mkSegment "flop comes king high" 8 12.

Definition transcript : Transcript :=
  {| file := "episode.mp3";
     duration_s := 12;
     language := "en";
     full_text :=
       "I had pocket aces preflop he raises to 200 flop comes king high";
     segments := [seg1; seg2; seg3];
     processed_at := "2025-01-01T00:00:00" |}.

(** An empty segment in front of one that names a street. *)
Definition silence : Segment := mkSegment "" 0 1.
Definition street : Segment := mkSegment "flop" 1 2.

Definition quiet_start : Transcript :=
  {| file := "episode.mp3";
     duration_s := 2;
     language := "en";
     full_text := "flop";
     segments := [silence; street];
     processed_at := "2025-01-01T00:00:00" |}.

End Scenario.

(* ================================================================== *)
(** ** More of Python: slices, suffixes, [re.sub] *)

Module Py.

(** [s[:n]] for [0 <= n] *)
Fixpoint take (n : nat) (s : string) : string :=
  match n, s with
  | S k, String c t => String c (take k t)
  | _, _ => EmptyString
  end.

(** [s.startswith(p)] *)
Definition startswith (s p : string) : bool := prefix p s.

(** [s.endswith(e)] *)
Definition endswith (s e : string) : bool :=
  (length e <=? length s)%nat
  && String.eqb (substring (length s - length e) (length e) s) e.

(** A slice bound brought into [0 .. len], a negative one counting from
    the end. *)
Definition clamp (len i : Z) : Z :=
  if (i <? 0)%Z then Z.max (i + len) 0 else Z.min i len.

(** [l[a:b]] *)
Definition slice {A} (l : list A) (a b : Z) : list A :=
  let len := Z.of_nat (List.length l) in
  let lo := clamp len a in
  let hi := clamp len b in
  firstn (Z.to_nat (hi - lo)) (skipn (Z.to_nat lo) l).

(** [re.sub(r, repl, s)] for a replacement without group references: the
    matches are those of [findall], the text between them is kept. *)
Fixpoint sub_from (r : Re.regex) (repl : string) (s : string) (skip : nat)
  : string :=
  let next (k : nat) : string :=
    match s with
    | String _ t => sub_from r repl t k
    | EmptyString => EmptyString
    end in
  let keep (rest : string) : string :=
    match s with
    | String c _ => String c rest
    | EmptyString => EmptyString
    end in
  match skip with
  | S k => next k
  | O =>
      match Re.match_here r s false with
      | None => keep (next 0)
      | Some rest =>
          match length s - length rest with
          | S n => repl ++ next n
          | O =>
              repl ++ match Re.match_here r s true with
                      | Some rest' =>
                          repl ++ next (length s - length rest' - 1)
                      | None => keep (next 0)
                      end
          end
      end
  end.

Definition sub (r : Re.regex) (repl s : string) : string :=
  sub_from r repl s 0.

End Py.

(* ================================================================== *)
(** ** File names: [sanitize_filename] and the name [download_audio]
       gives the audio file *)

Module Files.

Definition dquote : ascii := ascii_of_nat 34.

(** The nine characters of the class the pattern is made of: the angle
    brackets, the colon, the double quote, the slash, the backslash, the
    bar, the question mark and the star. *)
Definition unsafe_chars : list ascii :=
  ["<"; ">"; ":"; dquote; "/"; "\"; "|"; "?"; "*"]%char.

(** The class as a pattern: one of its characters. *)
Definition unsafe_class : Re.regex :=
  Re.alt (map (fun c => Re.Chr (Re.Lit c)) unsafe_chars).

(** The character is one of the nine. *)
Definition unsafe (c : ascii) : bool := existsb (Ascii.eqb c) unsafe_chars.

(** What becomes of one character of a file name. *)
Definition safe_char (c : ascii) : ascii := if unsafe c then "_"%char else c.

Fixpoint map_chars (f : ascii -> ascii) (s : string) : string :=
  match s with
  | EmptyString => EmptyString
  | String c t => String (f c) (map_chars f t)
  end.

Definition sanitize_filename (filename : string) : string :=
  let safe_name := Py.sub unsafe_class "_" filename in
  Py.take 100 safe_name.

Definition audio_extensions : list string := [".mp3"; ".wav"; ".m4a"].

(** The file name [download_audio] saves under.  [name] is
    [Path(urlparse(audio_url).path).name] and [stamp] is
    [datetime.now().strftime('%Y%m%d_%H%M%S')], both computed outside. *)
Definition download_filename (name stamp : string) : string :=
  if String.eqb name ""
     || negb (PyStr.any (fun ext => Py.endswith name ext) audio_extensions)
  then "episode_" ++ stamp ++ ".mp3"
  else name.

End Files.

(* ================================================================== *)
(** ** [fetch_rss_episodes]

    The feed is what [feedparser.parse] returned: objects whose attributes
    may be missing.  Reading a missing attribute raises AttributeError. *)

Module Rss.

Record Enclosure : Type := mkEnclosure {
  enc_type : option string;   (* .type *)
  enc_href : option string    (* .href *)
}.

Record Entry : Type := mkEntry {
  entry_title : option string;                (* .title *)
  entry_published : option string;            (* .published *)
  entry_enclosures : option (list Enclosure); (* .enclosures *)
  entry_summary : option string;              (* .summary *)
  entry_id : option string                    (* .id *)
}.

Record Feed : Type := mkFeed {
  bozo : bool;
  bozo_exception : string;   (* str(feed.bozo_exception) *)
  entries : list Entry
}.

(** One dictionary of [episodes]. *)
Record Episode : Type := mkEpisode {
  title : string;
  published : string;
  audio_url : string;
  description : string;
  guid : string
}.

Inductive exn : Type :=
| ValueError (msg : string)
| AttributeError (msg : string).

(** [str(e)] *)
Definition str (e : exn) : string :=
  match e with
  | ValueError msg => msg
  | AttributeError msg => msg
  end.

Inductive result (A : Type) : Type :=
| Ok (a : A)
| Raise (e : exn).

Arguments Ok {A} a.
Arguments Raise {A} e.

(** [getattr(obj, name, default)] *)
Definition getattr {A} (attribute : option A) (default : A) : A :=
  match attribute with
  | Some a => a
  | None => default
  end.

Section Fetch.

(** The text of the library's AttributeError for an attribute name. *)
Variable missing : string -> string.

(** [obj.name] *)
Definition attr {A} (attribute : option A) (name : string) : result A :=
  match attribute with
  | Some a => Ok a
  | None => Raise (AttributeError (missing name))
  end.

(** The loop over the enclosures: [audio_url] when it ends, the href of
    the first enclosure whose type starts with [audio/]. *)
Fixpoint find_audio (enclosures : list Enclosure) : result (option string) :=
  match enclosures with
  | [] => Ok None
  | enclosure :: rest =>
      match attr (enc_type enclosure) "type" with
      | Raise e => Raise e
      | Ok ty =>
          if Py.startswith ty "audio/"
          then match attr (enc_href enclosure) "href" with
               | Raise e => Raise e
               | Ok href => Ok (Some href)
               end
          else find_audio rest
      end
  end.

(** One turn of the loop over the entries: the new value of [episodes].
    An empty [audio_url] is as good as none. *)
Definition visit_entry (episodes : list Episode) (entry : Entry)
  : result (list Episode) :=
  match find_audio (getattr (entry_enclosures entry) []) with
  | Raise e => Raise e
  | Ok None => Ok episodes
  | Ok (Some url) =>
      if String.eqb url "" then Ok episodes
      else
        match attr (entry_title entry) "title" with
        | Raise e => Raise e
        | Ok t =>
            Ok (episodes
                  ++ [{| title := t;
                         published := getattr (entry_published entry) "Unknown";
                         audio_url := url;
                         description := getattr (entry_summary entry) "";
                         guid := getattr (entry_id entry) t |}])
        end
  end.

Fixpoint visit_entries (episodes : list Episode) (l : list Entry)
  : result (list Episode) :=
  match l with
  | [] => Ok episodes
  | entry :: rest =>
      match visit_entry episodes entry with
      | Raise e => Raise e
      | Ok episodes' => visit_entries episodes' rest
      end
  end.

(** The body of the [try]. *)
Definition fetch_body (feed : Feed) (max_episodes skip_episodes : Z)
  : result (list Episode) :=
  if bozo feed
  then Raise (ValueError ("Invalid RSS feed: " ++ bozo_exception feed))
  else visit_entries []
         (Py.slice (entries feed) skip_episodes (skip_episodes + max_episodes)).

(** [feed] is [feedparser.parse(rss_url)]; whatever is raised inside
    comes out as a ValueError. *)
Definition fetch_rss_episodes (feed : Feed) (max_episodes skip_episodes : Z)
  : result (list Episode) :=
  match fetch_body feed max_episodes skip_episodes with
  | Ok episodes => Ok episodes
  | Raise e => Raise (ValueError ("Failed to fetch RSS feed: " ++ str e))
  end.

(** The entry has an audio enclosure the loop stops at, with this href. *)
Definition first_audio (entry : Entry) (url : string) : Prop :=
  exists before enclosure after,
    getattr (entry_enclosures entry) [] = before ++ enclosure :: after
    /\ Forall (fun e => exists ty,
                   enc_type e = Some ty /\ Py.startswith ty "audio/" = false)
              before
    /\ (exists ty, enc_type enclosure = Some ty
                   /\ Py.startswith ty "audio/" = true)
    /\ enc_href enclosure = Some url.

(** The episode is made of the entry. *)
Definition made_of (entry : Entry) (ep : Episode) : Prop :=
  first_audio entry (audio_url ep)
  /\ audio_url ep <> ""
  /\ entry_title entry = Some (title ep)
  /\ published ep = getattr (entry_published entry) "Unknown"
  /\ description ep = getattr (entry_summary entry) ""
  /\ guid ep = getattr (entry_id entry) (title ep).

End Fetch.

End Rss.

(* ================================================================== *)
(** ** A feed to try the functions on *)

Module Samples.

Import Rss.

Definition episode_1 : Entry :=
  {| entry_title := Some "Episode 1";
     entry_published := Some "Mon, 06 Jan 2025";
     entry_enclosures :=
       Some [ mkEnclosure (Some "image/png") (Some "http://host/1.png");
              mkEnclosure (Some "audio/mpeg") (Some "http://host/1.mp3") ];
     entry_summary := None;
     entry_id := None |}.

Definition notes : Entry :=
  {| entry_title := Some "Show notes";
     entry_published := None;
     entry_enclosures := None;
     entry_summary := Some "No audio this week";
     entry_id := Some "notes-1" |}.

Definition episode_2 : Entry :=
  {| entry_title := Some "Episode 2";
     entry_published := None;
     entry_enclosures :=
       Some [ mkEnclosure (Some "audio/mpeg") (Some "http://host/2.mp3") ];
     entry_summary := Some "Hand review";
     entry_id := Some "ep-2" |}.

Definition feed : Feed :=
  {| bozo := false;
     bozo_exception := "";
     entries := [episode_1; notes; episode_2] |}.

(** The library's message, for the sake of running the functions. *)
Definition missing (name : string) : string :=
  "object has no attribute '" ++ name ++ "'".

Definition first_episode : Episode :=
  {| title := "Episode 1";
     published := "Mon, 06 Jan 2025";
     audio_url := "http://host/1.mp3";
     description := "";
     guid := "Episode 1" |}.

End Samples.

(* ================================================================== *)
(** ** Notions for the further properties of the detector *)

Module DetectorNotions.

Import Re Detector.

(** The fourth card pattern with its capital letters left out:
    [\d(?:s|h|d|c)?\s*\d(?:s|h|d|c)?]. *)
Definition digit_pair : regex :=
  seq [ Chr Digit; suit; Star Space; Chr Digit; suit ].

(** The fourth card pattern of the catalogue. *)
Definition shorthand : regex := seq [ rank; suit; Star Space; rank; suit ].

(** The segment with its text in lower case. *)
Definition lower_segment (segment : Segment) : Segment :=
  {| seg_text := PyStr.lower (seg_text segment);
     seg_start := seg_start segment;
     seg_end := seg_end segment |}.

(** The hand with its text in lower case. *)
Definition lower_hand (h : Hand) : Hand :=
  {| timestamp := timestamp h;
     duration := duration h;
     text := PyStr.lower (text h);
     confidence := confidence h;
     scores := scores h |}.

(** The transcript with the texts of its segments in lower case. *)
Definition lower_segments (t : Transcript) : Transcript :=
  {| file := file t;
     duration_s := duration_s t;
     language := language t;
     full_text := full_text t;
     segments := map lower_segment (segments t);
     processed_at := processed_at t |}.

(** No capital letter of the rank alternatives is in the text. *)
Definition capless (s : string) : bool :=
  forallb (fun c => negb (existsb (Ascii.eqb c) ["A"; "K"; "Q"; "J"; "T"]%char))
          (list_ascii_of_string s).

End DetectorNotions.

(* ================================================================== *)
(** * Properties *)

(** ** Strings *)

Module PyStrFacts.
Import PyStr.

Lemma append_assoc (a b c : string) : ((a ++ b) ++ c = a ++ (b ++ c))%string.
Proof. induction a as [|x a IH]; cbn; [reflexivity | now rewrite IH]. Qed.

Lemma append_nil_r (a : string) : (a ++ "")%string = a.
Proof. induction a as [|x a IH]; cbn; [reflexivity | now rewrite IH]. Qed.

Lemma lower_app (a b : string) :
  lower (a ++ b) = (lower a ++ lower b)%string.
Proof. induction a as [|x a IH]; cbn; [reflexivity | now rewrite IH]. Qed.

Lemma lower_join (l : list string) :
  lower (join " " l) = join " " (map lower l).
Proof.
  induction l as [|x [|y t] IH]; [reflexivity | reflexivity |].
  change (join " " (x :: y :: t)) with (x ++ " " ++ join " " (y :: t))%string.
  rewrite !lower_app, IH. reflexivity.
Qed.

Lemma prefix_app (w a b : string) :
  prefix w a = true -> prefix w (a ++ b) = true.
Proof.
  revert a. induction w as [|c w IH]; intros a H.
  - now destruct (a ++ b)%string.
  - destruct a as [|d a]; cbn in *; [discriminate |].
    destruct (ascii_dec c d); [now apply IH | discriminate].
Qed.

Lemma contains_eq (w s : string) :
  contains w s
  = if prefix w s then true
    else match s with
         | EmptyString => false
         | String _ t => contains w t
         end.
Proof. now destruct s. Qed.

Lemma contains_app_l (w a b : string) :
  contains w a = true -> contains w (a ++ b) = true.
Proof.
  induction a as [|d a IH]; rewrite contains_eq; intros H.
  - destruct (prefix w "") eqn:E; [| discriminate].
    apply (prefix_app _ _ b) in E.
    rewrite contains_eq. now rewrite E.
  - rewrite (contains_eq w (String d a ++ b)).
    destruct (prefix w (String d a)) eqn:E.
    + apply (prefix_app _ _ b) in E. now rewrite E.
    + cbn [append].
      destruct (prefix w (String d (a ++ b))); [reflexivity | now apply IH].
Qed.

Lemma contains_tail (w : string) (d : ascii) (a : string) :
  contains w a = true -> contains w (String d a) = true.
Proof.
  intros H. rewrite contains_eq.
  destruct (prefix w (String d a)); [reflexivity | exact H].
Qed.

Lemma contains_app_r (w a b : string) :
  contains w b = true -> contains w (a ++ b) = true.
Proof.
  intros H. induction a as [|d a IH]; [exact H |].
  cbn [append]. now apply contains_tail.
Qed.

(** A word that starts in front of a space ends in front of it. *)
Lemma prefix_before_space (w a b : string) :
  spaceless w = true ->
  prefix w (a ++ " " ++ b) = true -> prefix w a = true.
Proof.
  revert a. induction w as [|c w IH]; intros a Hw H.
  - now destruct a.
  - unfold spaceless in Hw. cbn [list_ascii_of_string forallb] in Hw.
    apply andb_prop in Hw as [Hc Hw].
    destruct a as [|d a]; cbn [append prefix] in *.
    + destruct (ascii_dec c " ") as [-> | ]; [discriminate | discriminate].
    + destruct (ascii_dec c d); [now apply IH | discriminate].
Qed.

Lemma contains_empty (w : string) : is_word w = true -> contains w "" = false.
Proof. destruct w; [discriminate | reflexivity]. Qed.

Lemma contains_space_sep (w a b : string) :
  is_word w = true ->
  contains w (a ++ " " ++ b) = contains w a || contains w b.
Proof.
  intros Hw.
  destruct (contains w a) eqn:Ea.
  { now apply contains_app_l. }
  destruct (contains w b) eqn:Eb.
  { now apply contains_app_r, (contains_app_r w " " b). }
  apply andb_prop in Hw as [Hne Hsp].
  cbn [orb]. change (" " ++ b)%string with (String " " b).
  pose proof (fun x => prefix_before_space w x b Hsp) as Hp.
  change (" " ++ b)%string with (String " " b) in Hp.
  induction a as [|d a IH].
  - cbn [append]. rewrite contains_eq.
    destruct (prefix w (String " " b)) eqn:E.
    + apply (Hp "") in E.
      destruct w; [discriminate Hne | discriminate E].
    + exact Eb.
  - rewrite contains_eq in Ea.
    destruct (prefix w (String d a)) eqn:E; [discriminate |].
    rewrite contains_eq.
    destruct (prefix w (String d a ++ String " " b)) eqn:E'.
    + apply Hp in E'. congruence.
    + now apply IH.
Qed.

Lemma contains_join (w : string) (l : list string) :
  is_word w = true ->
  contains w (join " " l) = existsb (contains w) l.
Proof.
  intros Hw. induction l as [|x [|y t] IH].
  - now apply contains_empty.
  - cbn. now rewrite orb_false_r.
  - change (join " " (x :: y :: t)) with (x ++ " " ++ join " " (y :: t))%string.
    rewrite contains_space_sep, IH by exact Hw. reflexivity.
Qed.

End PyStrFacts.

(** ** Rounding *)

Module F64Facts.
Import F64.
Local Open Scope Q_scope.

Lemma round_half_even_floor (q : Q) : (Qfloor q <= round_half_even q)%Z.
Proof.
  unfold round_half_even.
  destruct (Qcompare _ _); try destruct (Z.even _); lia.
Qed.

Lemma round_half_even_ge (z : Z) (q : Q) :
  inject_Z z <= q -> (z <= round_half_even q)%Z.
Proof.
  intros H. apply Qfloor_resp_le in H. rewrite Qfloor_Z in H.
  pose proof (round_half_even_floor q). lia.
Qed.

Lemma two_neq_0 : ~ 2 == 0.
Proof. discriminate. Qed.

Lemma pow2_pos (z : Z) : 0 < 2 ^ z.
Proof. apply Qpower_0_lt. reflexivity. Qed.

Lemma pow2_inject (z : Z) : (0 <= z)%Z -> 2 ^ z == inject_Z (2 ^ z).
Proof. intros H. symmetry. apply (Zpower_Qpower 2 z H). Qed.

(** The exponent found is not too large. *)
Lemma ilog2_lower (q : Q) : 0 < q -> 2 ^ ilog2 q <= q.
Proof.
  intros Hq. unfold ilog2.
  destruct (Qle_bool _ q) eqn:E.
  - now apply Qle_bool_iff.
  - clear E. destruct q as [n d]. cbn [Qnum Qden].
    assert (Hn : (0 < n)%Z).
    { unfold Qlt in Hq. cbn in Hq. lia. }
    set (ln := Z.log2 n). set (ld := Z.log2 (Zpos d)).
    assert (Hln : (0 <= ln)%Z) by apply Z.log2_nonneg.
    assert (Hld : (0 <= ld)%Z) by apply Z.log2_nonneg.
    replace (ln - ld - 1)%Z with (ln - (ld + 1))%Z by lia.
    rewrite (Qpower_minus 2 ln (ld + 1) two_neq_0).
    rewrite (pow2_inject ln Hln), (pow2_inject (ld + 1)) by lia.
    pose proof (Z.log2_spec n Hn) as [Hn1 _]. fold ln in Hn1.
    pose proof (Z.log2_spec (Zpos d) eq_refl) as [_ Hd2]. fold ld in Hd2.
    rewrite <- Z.add_1_r in Hd2.
    assert (HB : (0 < 2 ^ (ld + 1))%Z) by (apply Z.pow_pos_nonneg; lia).
    apply Qle_shift_div_r.
    + rewrite <- (Zlt_Qlt 0). exact HB.
    + unfold Qle, Qmult, inject_Z. cbn [Qnum Qden].
      rewrite Z.mul_1_r, Pos.mul_1_r. nia.
Qed.

(** Rounding does not go below a power of two that the value reaches. *)
Lemma rnd_ge_pow2 (j : Z) (q : Q) :
  (0 <= j)%Z -> 2 ^ j <= q -> 2 ^ j <= rnd q.
Proof.
  intros Hj Hq.
  assert (Hpos : 0 < q).
  { eapply Qlt_le_trans; [apply (pow2_pos j) | exact Hq]. }
  unfold rnd. destruct q as [n d]. cbn [Qnum].
  destruct n as [|p|p];
    try (exfalso; unfold Qlt in Hpos; cbn in Hpos; lia).
  set (q := Zpos p # d) in *. set (e := ilog2 q).
  pose proof (ilog2_lower q Hpos) as He. fold e in He.
  set (x := q * 2 ^ (52 - e)).
  assert (Hscale : 2 ^ (e - 52) * 2 ^ (52 - e) == 1).
  { rewrite <- Qpower_plus by apply two_neq_0.
    replace (e - 52 + (52 - e))%Z with 0%Z by lia. reflexivity. }
  destruct (Z_le_gt_dec e (j + 52)) as [Hle | Hgt].
  - (* the bound is an integer at the scale of the significand *)
    assert (Hx : inject_Z (2 ^ (j + 52 - e)) <= x).
    { rewrite <- pow2_inject by lia.
      replace (j + 52 - e)%Z with (j + (52 - e))%Z by lia.
      rewrite Qpower_plus by apply two_neq_0.
      unfold x. apply Qmult_le_compat_r; [exact Hq |].
      apply Qlt_le_weak, pow2_pos. }
    apply round_half_even_ge in Hx.
    rewrite Zle_Qle in Hx. rewrite <- pow2_inject in Hx by lia.
    apply (Qmult_le_compat_r _ _ (2 ^ (e - 52))) in Hx;
      [| apply Qlt_le_weak, pow2_pos].
    rewrite <- Qpower_plus in Hx by apply two_neq_0.
    replace (j + 52 - e + (e - 52))%Z with j in Hx by lia.
    exact Hx.
  - (* the significand is at least 2^52 *)
    assert (Hx : inject_Z (2 ^ 52) <= x).
    { rewrite <- pow2_inject by lia.
      unfold x.
      apply (Qmult_le_compat_r _ _ (2 ^ (52 - e))) in He;
        [| apply Qlt_le_weak, pow2_pos].
      rewrite <- Qpower_plus in He by apply two_neq_0.
      replace (e + (52 - e))%Z with 52%Z in He by lia. exact He. }
    apply round_half_even_ge in Hx.
    rewrite Zle_Qle in Hx. rewrite <- pow2_inject in Hx by lia.
    apply (Qmult_le_compat_r _ _ (2 ^ (e - 52))) in Hx;
      [| apply Qlt_le_weak, pow2_pos].
    rewrite <- Qpower_plus in Hx by apply two_neq_0.
    replace (52 + (e - 52))%Z with e in Hx by lia.
    eapply Qle_trans; [| exact Hx].
    apply Qpower_le_compat_l; [lia | discriminate].
Qed.

Lemma rnd_ge_1 (q : Q) : 1 <= q -> 1 <= rnd q.
Proof. apply (rnd_ge_pow2 0). lia. Qed.

Lemma rnd_ge_8 (q : Q) : 8 <= q -> 8 <= rnd q.
Proof. apply (rnd_ge_pow2 3). lia. Qed.

End F64Facts.

(** ** The loop and the sort *)

Module DetectorFacts.
Import Detector.

Section Sorting.
Context {A : Type} (key : A -> Q).

Lemma insert_desc_perm (x : A) (l : list A) :
  Permutation (insert_desc key x l) (x :: l).
Proof.
  induction l as [|y t IH]; cbn.
  - reflexivity.
  - destruct (Qle_bool (key y) (key x)).
    + reflexivity.
    + rewrite IH. apply perm_swap.
Qed.

Lemma sort_desc_perm (l : list A) : Permutation (sort_desc key l) l.
Proof.
  induction l as [|x t IH]; cbn.
  - constructor.
  - rewrite insert_desc_perm. now constructor.
Qed.

Lemma insert_desc_sorted (x : A) (l : list A) :
  StronglySorted (desc key) l ->
  StronglySorted (desc key) (insert_desc key x l).
Proof.
  induction 1 as [|y t Ht IH Hy]; cbn.
  - repeat constructor.
  - destruct (Qle_bool (key y) (key x)) eqn:E.
    + apply Qle_bool_iff in E.
      constructor; [now constructor |].
      constructor; [exact E |].
      eapply Forall_impl; [| exact Hy].
      intros z Hz. unfold desc in *. now apply Qle_trans with (key y).
    + constructor; [exact IH |].
      apply (Permutation_Forall (Permutation_sym (insert_desc_perm x t))).
      constructor; [| exact Hy].
      unfold desc. apply Qlt_le_weak, Qnot_le_lt.
      intros H. apply Qle_bool_iff in H. congruence.
Qed.

Lemma sort_desc_sorted (l : list A) :
  StronglySorted (desc key) (sort_desc key l).
Proof.
  induction l as [|x t IH]; cbn.
  - constructor.
  - now apply insert_desc_sorted.
Qed.

Lemma insert_desc_stable (c : Q) (x : A) (l : list A) :
  filter (same_key key c) (insert_desc key x l)
  = filter (same_key key c) (x :: l).
Proof.
  induction l as [|y t IH]; cbn [insert_desc].
  - reflexivity.
  - destruct (Qle_bool (key y) (key x)) eqn:E; [reflexivity |].
    cbn [filter] in *. rewrite IH.
    destruct (same_key key c y) eqn:Ey; [| reflexivity].
    destruct (same_key key c x) eqn:Ex; [| reflexivity].
    exfalso. unfold same_key in *.
    apply Qeq_bool_iff in Ex, Ey.
    assert (H : Qle_bool (key y) (key x) = true).
    { apply Qle_bool_iff. rewrite Ex, Ey. apply Qle_refl. }
    congruence.
Qed.

Lemma sort_desc_stable (c : Q) (l : list A) :
  filter (same_key key c) (sort_desc key l) = filter (same_key key c) l.
Proof.
  induction l as [|x t IH]; cbn [sort_desc fold_right].
  - reflexivity.
  - fold (sort_desc key t). rewrite insert_desc_stable.
    cbn [filter]. now rewrite IH.
Qed.

End Sorting.

Lemma visit_fold (segs : list Segment) (l : list (nat * Segment)) :
  forall acc, fold_left (visit segs) l acc = acc ++ flat_map (promote segs) l.
Proof.
  induction l as [|[i seg] t IH]; intros acc; cbn [fold_left flat_map].
  - now rewrite app_nil_r.
  - rewrite IH. unfold visit, promote. cbn [fst snd].
    destruct (substantial _).
    + now rewrite <- app_assoc.
    + reflexivity.
Qed.

Lemma collect_flat_map (segs : list Segment) :
  collect segs = flat_map (promote segs) (enumerate segs).
Proof. unfold collect. now rewrite visit_fold. Qed.

Lemma in_combine_seq {A} (l : list A) :
  forall a i x,
    In (i, x) (combine (seq a (List.length l)) l)
    <-> a <= i /\ nth_error l (i - a) = Some x.
Proof.
  induction l as [|y t IH]; intros a i x; cbn [List.length seq combine In].
  - split; [tauto |]. intros [_ H]. now destruct (i - a).
  - rewrite IH. split.
    + intros [H | [H1 H2]].
      * injection H as <- <-. rewrite Nat.sub_diag. split; [lia | reflexivity].
      * split; [lia |].
        replace (i - a) with (S (i - S a)) by lia. exact H2.
    + intros [H1 H2].
      destruct (Nat.eq_dec a i) as [<- | Hne].
      * left. rewrite Nat.sub_diag in H2. cbn in H2. congruence.
      * right. split; [lia |].
        replace (i - a) with (S (i - S a)) in H2 by lia. exact H2.
Qed.

Lemma in_enumerate {A} (l : list A) (i : nat) (x : A) :
  In (i, x) (enumerate l) <-> nth_error l i = Some x.
Proof.
  unfold enumerate. rewrite in_combine_seq, Nat.sub_0_r.
  split; [tauto | intros H; split; [lia | exact H]].
Qed.

Lemma length_enumerate {A} (l : list A) :
  List.length (enumerate l) = List.length l.
Proof.
  unfold enumerate. rewrite length_combine, length_seq. apply Nat.min_id.
Qed.

Lemma in_collect (segs : list Segment) (h : Hand) :
  In h (collect segs)
  <-> exists i seg,
      nth_error segs i = Some seg
      /\ substantial (score_segment segs i seg) = true
      /\ h = hand_of seg (score_segment segs i seg).
Proof.
  rewrite collect_flat_map, in_flat_map. split.
  - intros [[i seg] [Hin Hh]]. apply in_enumerate in Hin.
    unfold promote in Hh. cbn [fst snd] in Hh.
    destruct (substantial _) eqn:E; [| contradiction].
    destruct Hh as [<- | []]. now exists i, seg.
  - intros (i & seg & Hn & Hs & ->). exists (i, seg).
    split; [now apply in_enumerate |].
    unfold promote. cbn [fst snd]. rewrite Hs. now left.
Qed.

Lemma in_detect_hands (t : Transcript) (h : Hand) :
  In h (detect_hands t) <-> In h (collect (segments t)).
Proof.
  unfold detect_hands. split; apply Permutation_in.
  - apply sort_desc_perm.
  - apply Permutation_sym, sort_desc_perm.
Qed.

Lemma length_flat_map_le {A B} (f : A -> list B) (l : list A) :
  (forall x, List.length (f x) <= 1) ->
  List.length (flat_map f l) <= List.length l.
Proof.
  intros Hf. induction l as [|x t IH]; cbn.
  - lia.
  - rewrite length_app. specialize (Hf x). lia.
Qed.

Lemma length_collect (segs : list Segment) :
  List.length (collect segs) <= List.length segs.
Proof.
  rewrite collect_flat_map, <- (length_enumerate segs).
  apply length_flat_map_le. intros x. unfold promote.
  destruct (substantial _); cbn; lia.
Qed.

End DetectorFacts.

(** ** The confidence *)

Module ConfidenceFacts.
Import Detector F64Facts.
Local Open Scope Q_scope.

(** Comparisons of integers read in [Q]. *)
Ltac q_int := unfold Qle, Qlt, Qmult, inject_Z; cbn [Qnum Qden]; lia.

Lemma min_le_1 (x : Q) : 1 <= x -> F64.min x 1 == 1.
Proof.
intros H. unfold F64.min. destruct (Qle_bool x 1) eqn:E.
- apply Qle_bool_iff in E. now apply Qle_antisym.
- reflexivity.
Qed.

(** Below 8 the division is exact. *)
Lemma confidence_of_small (n : nat) :
  (n < 8)%nat -> confidence_of n == inject_Z (Z.of_nat n) / 8.
Proof.
intros H.
do 8 (destruct n as [|n]; [vm_compute; reflexivity |]).
lia.
Qed.

(** From 8 on the quotient is at least 1.0 and [min] caps it. *)
Lemma confidence_of_large (n : nat) : (8 <= n)%nat -> confidence_of n == 1.
Proof.
intros H. unfold confidence_of, F64.of_int.
apply min_le_1, rnd_ge_1.
apply Qle_shift_div_l; [reflexivity |].
apply rnd_ge_8. q_int.
Qed.

Lemma confidence_of_exact (n : nat) :
  confidence_of n == Qmin (inject_Z (Z.of_nat n) / 8) 1.
Proof.
destruct (Nat.lt_ge_cases n 8) as [H | H].
- rewrite confidence_of_small by exact H.
  symmetry. apply Q.min_l.
  apply Qle_shift_div_r; [reflexivity |].
  rewrite Qmult_1_l. q_int.
- rewrite confidence_of_large by exact H.
  symmetry. apply Q.min_r.
  apply Qle_shift_div_l; [reflexivity |].
  rewrite Qmult_1_l. q_int.
Qed.

Lemma confidence_of_range (n : nat) : 0 <= confidence_of n <= 1.
Proof.
rewrite confidence_of_exact. split.
- apply Q.min_glb; [| discriminate].
  apply Qle_shift_div_l; [reflexivity |].
  rewrite Qmult_0_l. q_int.
- apply Q.le_min_r.
Qed.

Lemma confidence_of_lower (n : nat) : (3 <= n)%nat -> 3 # 8 <= confidence_of n.
Proof.
intros H. rewrite confidence_of_exact.
apply Q.min_glb; [| discriminate].
apply Qle_shift_div_l; [reflexivity |].
q_int.
Qed.

End ConfidenceFacts.

(** ** The acceptance gate *)

Module GateFacts.
Import Detector DetectorFacts ConfidenceFacts PyStrFacts.

Lemma substantial_iff (sc : Scores) :
  substantial sc = true
  <-> 3 <= total_score sc /\ (1 <= cards sc \/ 1 <= hand_start sc).
Proof.
unfold substantial.
rewrite andb_true_iff, orb_true_iff, !Nat.leb_le. reflexivity.
Qed.

Lemma promoted_iff (t : Transcript) (i : nat) (segment : Segment) :
  nth_error (segments t) i = Some segment ->
  promoted t i segment
  <-> substantial (score_segment (segments t) i segment) = true.
Proof.
intros Hn. unfold promoted. rewrite in_detect_hands, in_collect. split.
- intros (j & seg' & _ & Hs & Heq).
  apply (f_equal scores) in Heq. cbn [hand_of scores] in Heq.
  now rewrite Heq.
- intros Hs. now exists i, segment.
Qed.

(** Every hand returned was built by [hand_of] from scores that pass. *)
Lemma returned_hand (t : Transcript) (h : Hand) :
  In h (detect_hands t) ->
  substantial (scores h) = true
  /\ confidence h = confidence_of (total_score (scores h)).
Proof.
intros H. apply in_detect_hands, in_collect in H.
destruct H as (i & seg & _ & Hs & ->). now split.
Qed.

Lemma hand_start_score_fold (s : string) (patterns : list Re.regex) :
  forall acc,
    fold_left (fun score pattern =>
                 if Re.search pattern s then score + 2 else score)
              patterns acc
    = acc + 2 * List.length (filter (fun p => Re.search p s) patterns).
Proof.
induction patterns as [|p ps IH]; intros acc; cbn [fold_left filter].
- cbn. lia.
- rewrite IH. destruct (Re.search p s); cbn [List.length]; lia.
Qed.

Lemma hand_start_score_count (s : string) :
  hand_start_score s
  = 2 * List.length (filter (fun p => Re.search p s) hand_start_patterns).
Proof.
unfold hand_start_score, hand_start_score_of. apply hand_start_score_fold.
Qed.

Lemma existsb_swap {A B} (f : A -> B -> bool) (la : list A) (lb : list B) :
  existsb (fun a => existsb (f a) lb) la
  = existsb (fun b => existsb (fun a => f a b) la) lb.
Proof.
induction la as [|a la IH]; cbn [existsb].
- induction lb as [|b lb IHb]; [reflexivity | cbn; now rewrite <- IHb].
- rewrite IH. clear IH.
  induction lb as [|b lb IHb]; cbn [existsb]; [reflexivity |].
  rewrite <- IHb.
  destruct (f a b), (existsb (f a) lb), (existsb (fun a0 => f a0 b) la);
    reflexivity.
Qed.

Lemma existsb_map {A B} (f : B -> bool) (g : A -> B) (l : list A) :
  existsb f (map g l) = existsb (fun x => f (g x)) l.
Proof. induction l as [|x l IH]; cbn; [reflexivity | now rewrite IH]. Qed.

Lemma existsb_ext_in {A} (f g : A -> bool) (l : list A) :
  (forall x, In x l -> f x = g x) -> existsb f l = existsb g l.
Proof.
induction l as [|x l IH]; intros H; cbn; [reflexivity |].
rewrite (H x) by now left. rewrite IH; [reflexivity |].
intros y Hy. apply H. now right.
Qed.

Lemma context_words_are_words (w : string) :
  In w context_words -> PyStr.is_word w = true.
Proof.
intros H. cbn in H.
repeat (destruct H as [<- | H]; [reflexivity |]). contradiction.
Qed.

(** The context score looks at each text of the window on its own. *)
Lemma context_score_window (segs : list Segment) (i : nat) (segment : Segment) :
  context_score segs i segment
  = if existsb mentions_context (context_window segs i segment) then 1 else 0.
Proof.
unfold context_score, PyStr.any. rewrite lower_join.
rewrite (existsb_ext_in _
           (fun w => existsb (PyStr.contains w)
                       (map PyStr.lower (context_window segs i segment)))).
- rewrite existsb_swap, existsb_map. reflexivity.
- intros w Hw. apply contains_join. now apply context_words_are_words.
Qed.

End GateFacts.

(** ** The report *)

Module ReportFacts.
Import Report PyStrFacts F64Facts ConfidenceFacts.

Lemma entries_acc (hands : list Hand) :
  forall i acc, entries i hands acc = (acc ++ entries i hands "")%string.
Proof.
induction hands as [|h hands IH]; intros i acc; cbn [entries].
- now rewrite append_nil_r.
- rewrite IH, (IH _ ("" ++ entry i h)%string). cbn [append].
  now rewrite append_assoc.
Qed.

Lemma entries_app (a b : list Hand) :
  forall i acc,
    entries i (a ++ b) acc = entries (i + List.length a) b (entries i a acc).
Proof.
induction a as [|h a IH]; intros i acc; cbn [entries app List.length].
- now rewrite Nat.add_0_r.
- rewrite IH. f_equal. lia.
Qed.

Lemma of_int_positive (n : Z) : (1 <= n)%Z -> (1 <= F64.of_int n)%Q.
Proof. intros H. apply rnd_ge_1. q_int. Qed.

(** The average never divides by zero. *)
Lemma avg_confidence_defined (hands : list Hand) :
  exists avg, avg_confidence hands = Some avg.
Proof.
destruct hands as [|h hands]; [now exists 0%Q |].
unfold avg_confidence, F64.div.
set (n := F64.of_int _).
assert (Hn : (1 <= n)%Q).
{ apply of_int_positive. cbn [List.length]. lia. }
destruct (Qeq_bool n 0) eqn:E; [| eauto].
apply Qeq_bool_iff in E. rewrite E in Hn.
unfold Qle in Hn. cbn in Hn. lia.
Qed.

Lemma to_int_floor (q : Q) : (0 <= q)%Q -> F64.to_int q = Qfloor q.
Proof.
destruct q as [n d]. unfold Qle, F64.to_int, Qfloor. cbn [Qnum Qden].
intros H. apply Z.quot_div_nonneg; lia.
Qed.

(** The seconds of a timestamp that is not negative. *)
Lemma seconds_range (ts : Q) :
  (0 <= ts)%Q -> (0 <= F64.to_int (F64.mod_ ts 60) < 60)%Z.
Proof.
intros Hts.
assert (Hq : (0 <= ts / 60)%Q).
{ apply Qle_shift_div_l; [reflexivity |]. now rewrite Qmult_0_l. }
assert (Hm : (0 <= F64.fmod ts 60 /\ F64.fmod ts 60 < 60)%Q).
{ unfold F64.fmod. rewrite (to_int_floor _ Hq).
  pose proof (Qfloor_le (ts / 60)) as H1.
  pose proof (Qlt_floor (ts / 60)) as H2.
  rewrite inject_Z_plus in H2.
  apply (Qmult_le_compat_r _ _ 60) in H1; [| discriminate].
  apply (Qmult_lt_compat_r _ _ 60) in H2; [| reflexivity].
  assert (E : (ts / 60 * 60 == ts)%Q) by (field).
  rewrite E in H1, H2. clear E.
  set (f := inject_Z (Qfloor (ts / 60))) in *.
  split.
  - apply (Qplus_le_l _ _ (60 * f)). ring_simplify.
    now rewrite Qmult_comm.
  - apply (Qplus_lt_l _ _ (60 * f)). ring_simplify.
    setoid_replace (60 * f + 60)%Q with ((f + inject_Z 1) * 60)%Q by ring.
    exact H2. }
destruct Hm as [Hm0 Hm60].
assert (Hmod : F64.mod_ ts 60 = F64.fmod ts 60).
{ unfold F64.mod_, F64.is_neg.
  apply Qle_bool_iff in Hm0. rewrite Hm0. cbn.
  now rewrite andb_false_r. }
rewrite Hmod, to_int_floor by exact Hm0.
split.
- apply Qfloor_resp_le in Hm0. exact Hm0.
- pose proof (Qfloor_le (F64.fmod ts 60)) as H.
  assert (H' : (inject_Z (Qfloor (F64.fmod ts 60)) < inject_Z 60)%Q)
    by (eapply Qle_lt_trans; eassumption).
  now rewrite <- Zlt_Qlt in H'.
Qed.

(** Below 100 the seconds take exactly two characters. *)
Lemma int_02d_two (z : Z) :
  (0 <= z < 100)%Z -> String.length (Fmt.int_02d z) = 2.
Proof.
intros H.
assert (E : z = Z.of_nat (Z.to_nat z)) by lia.
rewrite E.
assert (Hn : Z.to_nat z < 100) by lia.
revert Hn. generalize (Z.to_nat z). intros n Hn.
do 100 (destruct n as [|n]; [reflexivity |]).
lia.
Qed.

End ReportFacts.

(* ================================================================== *)
(** * The claims of the specification *)

Import Detector DetectorFacts ConfidenceFacts GateFacts.

(** ** The scenario *)

(** C1, as the code has it: in the three-segment scenario the first
    segment is promoted with hand start 2, cards 2, actions 0 and context
    1, so with a total of 5 and the confidence min(5/8, 1) = 5/8; the
    second segment is promoted as well, because its amount 200 counts as
    card mentions: cards 2, actions 1, context 1, a total of 4 and the
    confidence 1/2. *)
Theorem scenario_hands :
  let t := Scenario.transcript in
  let sc1 := score_segment (segments t) 0 Scenario.seg1 in
  let sc2 := score_segment (segments t) 1 Scenario.seg2 in
  sc1 = {| hand_start := 2; cards := 2; actions := 0; context := 1 |}
  /\ total_score sc1 = 5
  /\ promoted t 0 Scenario.seg1
  /\ (confidence (hand_of Scenario.seg1 sc1) == Qmin (5 / 8) 1)%Q
  /\ (confidence (hand_of Scenario.seg1 sc1) == 5 # 8)%Q
  /\ sc2 = {| hand_start := 0; cards := 2; actions := 1; context := 1 |}
  /\ total_score sc2 = 4
  /\ promoted t 1 Scenario.seg2
  /\ (confidence (hand_of Scenario.seg2 sc2) == 1 # 2)%Q
  /\ map text (detect_hands t)
     = ["I had pocket aces preflop"; "he raises to 200";
        "flop comes king high"].
Proof.
intros t sc1 sc2.
assert (E1 : sc1 = mkScores 2 2 0 1) by (vm_compute; reflexivity).
assert (E2 : sc2 = mkScores 0 2 1 1) by (vm_compute; reflexivity).
split; [exact E1 |].
split; [rewrite E1; reflexivity |].
split; [apply (proj2 (promoted_iff t 0 Scenario.seg1 eq_refl));
        vm_compute; reflexivity |].
split; [rewrite E1; vm_compute; reflexivity |].
split; [rewrite E1; vm_compute; reflexivity |].
split; [exact E2 |].
split; [rewrite E2; reflexivity |].
split; [apply (proj2 (promoted_iff t 1 Scenario.seg2 eq_refl));
        vm_compute; reflexivity |].
split; [rewrite E2; vm_compute; reflexivity |].
vm_compute. reflexivity.
Qed.

(** C1, as the specification words it, fails: the second segment of the
    scenario is promoted. *)
Lemma scenario_second_segment_promoted :
  let t := Scenario.transcript in
  let sc1 := score_segment (segments t) 0 Scenario.seg1 in
  ~ ((promoted t 0 Scenario.seg1
      /\ 3 <= total_score sc1 /\ 1 <= cards sc1
      /\ (confidence (hand_of Scenario.seg1 sc1)
          == Qmin (inject_Z (Z.of_nat (total_score sc1)) / 8) 1)%Q)
     /\ ~ promoted t 1 Scenario.seg2).
Proof.
intros t sc1 [_ H]. apply H.
apply (proj2 (promoted_iff t 1 Scenario.seg2 eq_refl)).
vm_compute. reflexivity.
Qed.

(** ** The acceptance gate *)

(** C2: a segment of the transcript is promoted exactly when its total
    score is at least 3 and its card score or its hand-start score is at
    least 1; without cards and without hand start it is never promoted,
    whatever its action and context scores; and as many hands are returned
    as segments pass this gate. *)
Theorem acceptance_gate (t : Transcript) (i : nat) (segment : Segment) :
  nth_error (segments t) i = Some segment ->
  let sc := score_segment (segments t) i segment in
  (promoted t i segment
   <-> 3 <= total_score sc /\ (1 <= cards sc \/ 1 <= hand_start sc))
  /\ (cards sc = 0 -> hand_start sc = 0 -> ~ promoted t i segment)
  /\ List.length (detect_hands t)
     = List.length
         (filter (fun e => substantial
                             (score_segment (segments t) (fst e) (snd e)))
                 (enumerate (segments t))).
Proof.
intros Hn sc.
pose proof (promoted_iff t i segment Hn) as Hp. fold sc in Hp.
rewrite substantial_iff in Hp.
split; [exact Hp |]. split.
- intros Hc Hh Habs. apply Hp in Habs. lia.
- unfold detect_hands.
  rewrite (Permutation_length (sort_desc_perm confidence _)).
  rewrite collect_flat_map.
  induction (enumerate (segments t)) as [|e l IH]; [reflexivity |].
  cbn [flat_map filter]. rewrite length_app, IH. unfold promote.
  now destruct (substantial _).
Qed.

(** The gate at the third segment of the scenario. *)
Lemma acceptance_gate_witness :
  let t := Scenario.transcript in
  let sc := score_segment (segments t) 2 Scenario.seg3 in
  (promoted t 2 Scenario.seg3
   <-> 3 <= total_score sc /\ (1 <= cards sc \/ 1 <= hand_start sc))
  /\ (cards sc = 0 -> hand_start sc = 0 -> ~ promoted t 2 Scenario.seg3)
  /\ List.length (detect_hands t)
     = List.length
         (filter (fun e => substantial
                             (score_segment (segments t) (fst e) (snd e)))
                 (enumerate (segments t))).
Proof.
apply (acceptance_gate Scenario.transcript 2 Scenario.seg3). reflexivity.
Defined.

(** ** The confidence *)



(** C10: no hand is returned with a confidence below 3/8. *)
Theorem confidence_floor (t : Transcript) (h : Hand) :
  In h (detect_hands t) -> (3 # 8 <= confidence h)%Q.
Proof.
intros Hin. destruct (returned_hand t h Hin) as [Hs Hc].
rewrite Hc. apply confidence_of_lower.
now apply substantial_iff in Hs.
Qed.

(** The floor at the second hand of the scenario. *)
Lemma confidence_floor_witness :
  (3 # 8
   <= confidence
        (hand_of Scenario.seg2
           (score_segment (segments Scenario.transcript) 1 Scenario.seg2)))%Q.
Proof.
apply (confidence_floor Scenario.transcript).
vm_compute. right. left. reflexivity.
Defined.

(** ** The ranking *)

(** C4: the hands are returned in an order in which the confidence never
    increases; the hands of one confidence come in the order in which the
    loop over the transcript found them; and there are no more hands than
    segments. *)
Theorem ranking (t : Transcript) :
  StronglySorted (fun h1 h2 => (confidence h2 <= confidence h1)%Q)
                 (detect_hands t)
  /\ (forall c : Q,
        filter (fun h => Qeq_bool (confidence h) c) (detect_hands t)
        = filter (fun h => Qeq_bool (confidence h) c)
                 (flat_map (promote (segments t)) (enumerate (segments t))))
  /\ List.length (detect_hands t) <= List.length (segments t).
Proof.
unfold detect_hands. split; [| split].
- apply (sort_desc_sorted confidence).
- intros c. rewrite <- collect_flat_map.
  apply (sort_desc_stable confidence c).
- rewrite (Permutation_length (sort_desc_perm confidence _)).
  apply length_collect.
Qed.

(** ** Repeated calls *)

Lemma print_outcome (out : Console.Stdout) (text : list N) :
  fst (Console.print out text)
  = if Console.printable out text then Console.Returns tt
    else if Console.closed out then Console.Raises Console.ValueError
         else Console.Raises Console.UnicodeEncodeError.
Proof.
destruct out as [c enc st w].
unfold Console.print, Console.write, Console.printable.
cbn [Console.closed Console.strict Console.encodable Console.written].
rewrite forallb_app.
destruct c; [reflexivity |].
destruct st; cbn [andb negb orb].
- destruct (forallb enc text); cbn [andb negb fst]; [| reflexivity].
  cbn [Console.closed Console.strict Console.encodable andb].
  destruct (forallb enc Console.newline); reflexivity.
- reflexivity.
Qed.

(** Printing leaves the stream as able to print as it was. *)
Lemma print_keeps_stream (out : Console.Stdout) (text text' : list N) :
  Console.printable (snd (Console.print out text)) text'
  = Console.printable out text'.
Proof.
destruct out as [c enc st w].
unfold Console.print, Console.write, Console.printable.
cbn [Console.closed Console.strict Console.encodable Console.written].
destruct c; [reflexivity |].
destruct (st && negb (forallb enc text)); cbn [fst snd]; [reflexivity |].
cbn [Console.closed Console.strict Console.encodable].
destruct (st && negb (forallb enc Console.newline)); reflexivity.
Qed.



(** ** The hand-start score *)

(** C9: the hand-start score is twice the number of hand-start patterns
    found in the segment, hence even, and in the gate "at least 1" is the
    same as "at least 2". *)
Theorem hand_start_even (segs : list Segment) (i : nat) (segment : Segment) :
  let sc := score_segment segs i segment in
  hand_start sc
  = 2 * List.length
          (filter (fun p => Re.search p (PyStr.lower (seg_text segment)))
                  hand_start_patterns)
  /\ Nat.Even (hand_start sc)
  /\ (1 <= hand_start sc <-> 2 <= hand_start sc)
  /\ substantial sc
     = (3 <=? total_score sc)%nat
       && ((1 <=? cards sc)%nat || (2 <=? hand_start sc)%nat).
Proof.
intros sc.
pose proof (hand_start_score_count (PyStr.lower (seg_text segment))) as E.
change (hand_start_score (PyStr.lower (seg_text segment)))
  with (hand_start sc) in E.
split; [exact E |].
split; [eexists; exact E |].
split; [lia |].
unfold substantial. do 2 f_equal.
destruct (Nat.leb_spec 1 (hand_start sc)), (Nat.leb_spec 2 (hand_start sc));
  try reflexivity; lia.
Qed.

(** ** Segments without text *)

Lemma empty_text_scores :
  hand_start_score (PyStr.lower "") = 0
  /\ card_score (PyStr.lower "") = 0
  /\ action_score (PyStr.lower "") = 0
  /\ mentions_context "" = false.
Proof. vm_compute. repeat split. Qed.

(** C5, as the code has it: a segment whose text is empty has the
    hand-start, card and action scores 0; its context score is 1 when a
    text next to it in the transcript has a context word in it, and 0
    otherwise; and it is not promoted. *)
Theorem empty_segment_scores (t : Transcript) (i : nat) (segment : Segment) :
  nth_error (segments t) i = Some segment ->
  seg_text segment = "" ->
  let sc := score_segment (segments t) i segment in
  hand_start sc = 0 /\ cards sc = 0 /\ actions sc = 0
  /\ context sc
     = (if existsb mentions_context (neighbours (segments t) i) then 1 else 0)
  /\ ~ promoted t i segment.
Proof.
intros Hn Htxt sc.
destruct empty_text_scores as (Hh & Hc & Ha & Hm).
assert (Eh : hand_start sc = 0) by (cbn; now rewrite Htxt).
assert (Ec : cards sc = 0) by (cbn; now rewrite Htxt).
assert (Ea : actions sc = 0) by (cbn; now rewrite Htxt).
split; [exact Eh |]. split; [exact Ec |]. split; [exact Ea |]. split.
- cbn [sc score_segment context]. rewrite context_score_window.
  unfold context_window, neighbours. rewrite Htxt.
  rewrite !existsb_app. cbn [existsb]. rewrite Hm. reflexivity.
- intros Hp. apply (promoted_iff t i segment Hn) in Hp.
  apply substantial_iff in Hp. fold sc in Hp. lia.
Qed.

(** The scores of the empty segment in front of "flop". *)
Lemma empty_segment_scores_witness :
  let t := Scenario.quiet_start in
  let sc := score_segment (segments t) 0 Scenario.silence in
  hand_start sc = 0 /\ cards sc = 0 /\ actions sc = 0
  /\ context sc
     = (if existsb mentions_context (neighbours (segments t) 0) then 1 else 0)
  /\ ~ promoted t 0 Scenario.silence.
Proof.
apply (empty_segment_scores Scenario.quiet_start 0 Scenario.silence);
  reflexivity.
Defined.

(** C5, as the specification words it, fails: an empty segment in front
    of a segment that says "flop" has the context score 1. *)
Lemma empty_segment_context_score :
  let t := Scenario.quiet_start in
  let sc := score_segment (segments t) 0 Scenario.silence in
  nth_error (segments t) 0 = Some Scenario.silence
  /\ seg_text Scenario.silence = ""
  /\ context sc = 1
  /\ ~ ((hand_start sc = 0 /\ cards sc = 0 /\ actions sc = 0
         /\ context sc = 0)
        /\ ~ promoted t 0 Scenario.silence).
Proof.
intros t sc.
assert (E : context sc = 1) by (vm_compute; reflexivity).
split; [reflexivity |]. split; [reflexivity |]. split; [exact E |].
intros [(_ & _ & _ & H) _]. rewrite E in H. discriminate H.
Qed.

(** ** The report *)

Import PyStr.

(** C6: without hands the average confidence is 0 and is printed as
    0.00, the summary counts 0 hands, nothing follows the heading of the
    detected hands, and the report is produced, not an exception. *)
Theorem report_without_hands (t : Transcript) :
  Report.avg_confidence [] = Some 0%Q
  /\ Fmt.fixed 2 0 = "0.00"
  /\ Report.entries 1 [] "" = ""
  /\ Report.report_content t []
     = Some ("# Poker Hands Analysis" ++ nl
             ++ "        " ++ nl
             ++ "**Source:** " ++ file t ++ nl
             ++ "**Duration:** " ++ Fmt.fixed 1 (duration_s t)
             ++ " seconds" ++ nl
             ++ "**Language:** " ++ language t ++ nl
             ++ "**Processed:** " ++ processed_at t ++ nl
             ++ nl
             ++ "## Summary" ++ nl
             ++ "- **Total hands detected:** 0" ++ nl
             ++ "- **Average confidence:** 0.00" ++ nl
             ++ nl
             ++ "## Detected Hands" ++ nl
             ++ nl)%string.
Proof. repeat split. Qed.

(** C8: the entry of every hand of the report has the line of its
    timestamp, written as in the specification: the minutes
    [int(timestamp // 60)], a colon, and the seconds [int(timestamp % 60)]
    on two digits.  For a timestamp that is not negative the seconds are
    below 60 and take exactly two characters; and 125.7 is written 2:05. *)
Theorem report_timestamp
        (t : Transcript) (hands : list Hand) (k : nat) (h : Hand) :
  nth_error hands k = Some h ->
  (exists before after : string,
      Report.report_content t hands
      = Some (before
              ++ "### Hand " ++ Fmt.int (Z.of_nat (k + 1)) ++ nl
              ++ "**Timestamp:** " ++ Report.minutes_seconds (timestamp h)
              ++ nl ++ after)%string)
  /\ ((0 <= timestamp h)%Q ->
      (0 <= F64.to_int (F64.mod_ (timestamp h) 60) < 60)%Z
      /\ String.length (Fmt.int_02d (F64.to_int (F64.mod_ (timestamp h) 60)))
         = 2)
  /\ Report.minutes_seconds F64.lit_125_7 = "2:05".
Proof.
intros Hn. split; [| split].
- destruct (nth_error_split hands k Hn) as (l1 & l2 & -> & Hk).
  destruct (ReportFacts.avg_confidence_defined (l1 ++ h :: l2)) as [avg Ha].
  unfold Report.report_content. rewrite Ha.
  rewrite ReportFacts.entries_app. cbn [Report.entries].
  rewrite ReportFacts.entries_acc. rewrite Hk.
  set (X := Report.entries 1 l1 _).
  set (Y := Report.entries _ l2 "").
  exists X.
  exists ("**Confidence:** " ++ Fmt.fixed 2 (confidence h) ++ nl
          ++ "**Text:** " ++ strip (text h) ++ nl
          ++ nl ++ "---" ++ nl ++ nl ++ Y)%string.
  f_equal. unfold Report.entry, Report.minutes_seconds.
  replace (1 + k) with (k + 1) by lia.
  repeat rewrite PyStrFacts.append_assoc. reflexivity.
- intros Hts. pose proof (ReportFacts.seconds_range _ Hts) as Hs.
  split; [exact Hs |]. apply ReportFacts.int_02d_two. lia.
- vm_compute. reflexivity.
Qed.

(** The report of one hand found at 125.7 seconds. *)
Lemma report_timestamp_witness :
  let h := {| timestamp := F64.lit_125_7; duration := 3; text := "ace";
              confidence := 1 # 2;
              scores := {| hand_start := 2; cards := 1; actions := 0;
                           context := 1 |} |} in
  (exists before after : string,
      Report.report_content Scenario.transcript [h]
      = Some (before
              ++ "### Hand " ++ Fmt.int (Z.of_nat (0 + 1)) ++ nl
              ++ "**Timestamp:** " ++ Report.minutes_seconds (timestamp h)
              ++ nl ++ after)%string)
  /\ ((0 <= timestamp h)%Q ->
      (0 <= F64.to_int (F64.mod_ (timestamp h) 60) < 60)%Z
      /\ String.length (Fmt.int_02d (F64.to_int (F64.mod_ (timestamp h) 60)))
         = 2)
  /\ Report.minutes_seconds F64.lit_125_7 = "2:05".
Proof.
intros h. apply (report_timestamp Scenario.transcript [h] 0 h). reflexivity.
Defined.

(* ================================================================== *)
(** * Further properties *)

(** ** File names *)

Module FilesFacts.
Import Re Py Files.

(** A class of characters takes one character of the class or fails. *)
Lemma run_class (cs : list ascii) (c : ascii) (t : string)
      (k : string -> option string) :
  cs <> [] ->
  run (alt (map (fun d => Chr (Lit d)) cs)) (String c t) k
  = if existsb (Ascii.eqb c) cs then k t else None.
Proof.
induction cs as [|d [|d' cs] IH]; intros Hne; [congruence | |].
- cbn. destruct (Ascii.eqb c d); reflexivity.
- change (alt (map (fun d => Chr (Lit d)) (d :: d' :: cs)))
    with (Alt (Chr (Lit d)) (alt (map (fun d => Chr (Lit d)) (d' :: cs)))).
  cbn [run accepts existsb]. rewrite IH by discriminate.
  destruct (Ascii.eqb c d); cbn [orb or_else]; [| reflexivity].
  destruct (k t); [reflexivity |].
  now destruct (existsb (Ascii.eqb c) (d' :: cs)).
Qed.

Lemma run_class_empty (cs : list ascii) (k : string -> option string) :
  cs <> [] ->
  run (alt (map (fun d => Chr (Lit d)) cs)) "" k = None.
Proof.
induction cs as [|d [|d' cs] IH]; intros Hne; [congruence | reflexivity |].
change (alt (map (fun d => Chr (Lit d)) (d :: d' :: cs)))
  with (Alt (Chr (Lit d)) (alt (map (fun d => Chr (Lit d)) (d' :: cs)))).
cbn [run or_else]. now apply IH.
Qed.

Lemma match_here_unsafe (c : ascii) (t : string) :
  match_here unsafe_class (String c t) false
  = if unsafe c then Some t else None.
Proof. unfold match_here, unsafe_class. now rewrite run_class. Qed.

(** The substitution works on the characters one by one. *)
Lemma sub_unsafe (s : string) :
  sub unsafe_class "_" s = map_chars safe_char s.
Proof.
unfold sub. induction s as [|c t IH]; [reflexivity |].
cbn [sub_from]. rewrite match_here_unsafe.
cbn [map_chars]. unfold safe_char.
destruct (unsafe c).
- replace (length (String c t) - length t) with 1 by (cbn [length]; lia).
  cbn [append]. now rewrite IH.
- now rewrite IH.
Qed.

Lemma length_take (n : nat) (s : string) :
  length (take n s) = Nat.min n (length s).
Proof.
revert s. induction n as [|n IH]; intros [|c t]; cbn; try reflexivity.
now rewrite IH.
Qed.

Lemma length_map_chars (f : ascii -> ascii) (s : string) :
  length (map_chars f s) = length s.
Proof. induction s as [|c t IH]; cbn; [reflexivity | now rewrite IH]. Qed.

Lemma take_map_chars (f : ascii -> ascii) (n : nat) (s : string) :
  take n (map_chars f s) = map_chars f (take n s).
Proof.
revert s. induction n as [|n IH]; intros [|c t]; cbn; try reflexivity.
now rewrite IH.
Qed.

Lemma take_take (n : nat) (s : string) : take n (take n s) = take n s.
Proof.
revert s. induction n as [|n IH]; intros [|c t]; cbn; try reflexivity.
now rewrite IH.
Qed.

Lemma take_all (n : nat) (s : string) : length s <= n -> take n s = s.
Proof.
revert s. induction n as [|n IH]; intros [|c t] H; cbn in *;
  try reflexivity; try lia.
rewrite IH; [reflexivity | lia].
Qed.

Lemma get_take (n i : nat) (s : string) :
  i < n -> get i (take n s) = get i s.
Proof.
revert i s. induction n as [|n IH]; intros i [|c t] H; cbn; try reflexivity;
  try lia.
destruct i as [|i]; [reflexivity |]. apply IH. lia.
Qed.

Lemma get_take_out (n i : nat) (s : string) :
  n <= i -> get i (take n s) = None.
Proof.
revert i s. induction n as [|n IH]; intros i [|c t] H; cbn; try reflexivity.
destruct i as [|i]; [lia |]. apply IH. lia.
Qed.

Lemma get_map_chars (f : ascii -> ascii) (i : nat) (s : string) :
  get i (map_chars f s) = option_map f (get i s).
Proof.
revert i. induction s as [|c t IH]; intros i; cbn; [reflexivity |].
destruct i as [|i]; [reflexivity | apply IH].
Qed.

Lemma safe_char_safe (c : ascii) : unsafe (safe_char c) = false.
Proof.
unfold safe_char. destruct (unsafe c) eqn:E; [reflexivity | exact E].
Qed.

Lemma safe_char_idem (c : ascii) : safe_char (safe_char c) = safe_char c.
Proof. unfold safe_char at 1. now rewrite safe_char_safe. Qed.

Lemma map_chars_idem (s : string) :
  map_chars safe_char (map_chars safe_char s) = map_chars safe_char s.
Proof.
induction s as [|c t IH]; cbn; [reflexivity |].
now rewrite safe_char_idem, IH.
Qed.

Lemma sanitize_filename_eq (filename : string) :
  sanitize_filename filename = take 100 (map_chars safe_char filename).
Proof. unfold sanitize_filename. now rewrite sub_unsafe. Qed.

End FilesFacts.

(** X1: the sanitized name has the length of the title, cut at 100, and at
    each place the character of the title, or an underscore where the
    title has one of the nine characters of the pattern. *)
Theorem sanitize_filename_chars (filename : string) :
  String.length (Files.sanitize_filename filename)
  = Nat.min 100 (String.length filename)
  /\ forall i : nat,
       get i (Files.sanitize_filename filename)
       = if (i <? 100)%nat
         then option_map (fun c => if Files.unsafe c then "_"%char else c)
                         (get i filename)
         else None.
Proof.
rewrite FilesFacts.sanitize_filename_eq. split.
- now rewrite FilesFacts.length_take, FilesFacts.length_map_chars.
- intros i. destruct (Nat.ltb_spec i 100) as [H | H].
  + rewrite FilesFacts.get_take by exact H.
    apply FilesFacts.get_map_chars.
  + now apply FilesFacts.get_take_out.
Qed.

(** X2: none of the nine characters is left in a sanitized name: no
    slash and no backslash in particular, so the name is one path
    component. *)
Theorem sanitize_filename_safe (filename : string) (i : nat) (c : ascii) :
  get i (Files.sanitize_filename filename) = Some c ->
  Files.unsafe c = false /\ c <> "/"%char /\ c <> "\"%char.
Proof.
intros H.
assert (Hs : Files.unsafe c = false).
{ rewrite FilesFacts.sanitize_filename_eq in H.
  destruct (Nat.lt_ge_cases i 100) as [Hi | Hi].
  - rewrite FilesFacts.get_take, FilesFacts.get_map_chars in H by exact Hi.
    destruct (get i filename); [| discriminate].
    injection H as <-. apply FilesFacts.safe_char_safe.
  - rewrite FilesFacts.get_take_out in H by exact Hi. discriminate. }
split; [exact Hs |].
split; intros ->; discriminate Hs.
Qed.

(** A title with a slash in it. *)
Lemma sanitize_filename_safe_witness :
  Files.unsafe "_" = false /\ "_"%char <> "/"%char /\ "_"%char <> "\"%char.
Proof.
apply (sanitize_filename_safe "a/b" 1 "_"). reflexivity.
Defined.

(** X3: sanitizing twice is sanitizing once, and a name of at most 100
    characters without any of the nine characters is left as it is. *)
Theorem sanitize_filename_idempotent (filename : string) :
  Files.sanitize_filename (Files.sanitize_filename filename)
  = Files.sanitize_filename filename
  /\ ((String.length filename <= 100)%nat ->
      (forall i c, get i filename = Some c -> Files.unsafe c = false) ->
      Files.sanitize_filename filename = filename).
Proof.
rewrite !FilesFacts.sanitize_filename_eq. split.
- rewrite FilesFacts.take_map_chars, FilesFacts.take_take.
  rewrite <- FilesFacts.take_map_chars.
  now rewrite FilesFacts.map_chars_idem.
- intros Hlen Hsafe.
  rewrite FilesFacts.take_all
    by now rewrite FilesFacts.length_map_chars.
  clear Hlen. induction filename as [|c t IH]; [reflexivity |].
  cbn [Files.map_chars]. rewrite IH.
  + unfold Files.safe_char. now rewrite (Hsafe 0 c eq_refl).
  + intros i d H. apply (Hsafe (S i) d). exact H.
Qed.

Module SuffixFacts.
Import Py.

Lemma length_append (a b : string) :
  length (a ++ b) = length a + length b.
Proof. induction a as [|c a IH]; cbn; [reflexivity | now rewrite IH]. Qed.

Lemma substring_all (s : string) : substring 0 (length s) s = s.
Proof. induction s as [|c s IH]; cbn; [reflexivity | now rewrite IH]. Qed.

Lemma substring_append (a b : string) :
  substring (length a) (length b) (a ++ b) = b.
Proof.
induction a as [|c a IH]; cbn [append length substring].
- apply substring_all.
- exact IH.
Qed.

Lemma endswith_append (a e : string) : endswith (a ++ e) e = true.
Proof.
unfold endswith. rewrite length_append.
replace (length a + length e - length e) with (length a) by lia.
rewrite substring_append, String.eqb_refl.
apply andb_true_iff. split; [apply Nat.leb_le; lia | reflexivity].
Qed.

Lemma endswith_nonempty (s e : string) :
  endswith s e = true -> e <> "" -> s <> "".
Proof.
unfold endswith. intros H He ->.
apply andb_prop in H as [H _]. apply Nat.leb_le in H.
destruct e; [congruence | cbn in H; lia].
Qed.

End SuffixFacts.

(** X4: whatever the URL ends in, the name the audio is saved under ends
    in .mp3, .wav or .m4a, and is not empty: a name from the URL that
    ends in one of the three is kept, and for any other name, the empty
    one too, the name is episode_, the time stamp and .mp3. *)
Theorem download_filename_extension (name stamp : string) :
  let filename := Files.download_filename name stamp in
  (exists ext, In ext Files.audio_extensions
               /\ Py.endswith filename ext = true)
  /\ filename <> ""
  /\ (forall ext, In ext Files.audio_extensions ->
                  Py.endswith name ext = true -> filename = name)
  /\ ((forall ext, In ext Files.audio_extensions ->
                   Py.endswith name ext = false) ->
      filename = ("episode_" ++ stamp ++ ".mp3")%string)
  /\ (name = "" -> filename = ("episode_" ++ stamp ++ ".mp3")%string).
Proof.
intros filename. unfold filename, Files.download_filename, PyStr.any.
destruct (String.eqb_spec name "") as [-> | Hne]; cbn [orb].
- split; [| split; [| split; [| split]]].
  + exists ".mp3". split; [now left |].
    apply (SuffixFacts.endswith_append ("episode_" ++ stamp) ".mp3").
  + discriminate.
  + intros ext Hin H. exfalso.
    apply (SuffixFacts.endswith_nonempty _ _ H); [| reflexivity].
    cbn in Hin. intuition (subst; discriminate).
  + reflexivity.
  + reflexivity.
- destruct (existsb _ Files.audio_extensions) eqn:E; cbn [negb].
  + apply existsb_exists in E. destruct E as (ext & Hin & H).
    split; [now exists ext |].
    split; [exact Hne |]. split; [reflexivity |]. split.
    * intros Hall. rewrite (Hall ext Hin) in H. discriminate H.
    * intros ->. now contradiction Hne.
  + split; [| split; [| split; [| split]]].
    * exists ".mp3". split; [now left |].
      apply (SuffixFacts.endswith_append ("episode_" ++ stamp) ".mp3").
    * discriminate.
    * intros ext Hin H. exfalso.
      assert (E' : existsb (fun e => Py.endswith name e)
                           Files.audio_extensions = true)
        by (apply existsb_exists; now exists ext).
      congruence.
    * reflexivity.
    * reflexivity.
Qed.

(** ** The episodes of a feed *)

Module RssFacts.
Import Py Rss.

Lemma slice_incl {A} (l : list A) (a b : Z) (x : A) :
  In x (slice l a b) -> In x l.
Proof.
unfold slice. intros H. apply In_nth_error in H as [i H].
rewrite nth_error_firstn in H.
destruct (i <? _)%nat; [| discriminate].
rewrite nth_error_skipn in H. eapply nth_error_In. exact H.
Qed.

(** What a slice with bounds that are not negative is made of. *)
Lemma in_slice {A} (l : list A) (a m : Z) (x : A) :
  (0 <= a)%Z -> (0 <= m)%Z ->
  In x (slice l a (a + m)) ->
  exists j, (a <= Z.of_nat j < a + m)%Z /\ nth_error l j = Some x.
Proof.
intros Ha Hm H. unfold slice, clamp in H.
apply In_nth_error in H as [i H].
rewrite nth_error_firstn in H.
destruct (Nat.ltb_spec i (Z.to_nat
            ((if (a + m <? 0)%Z
              then Z.max (a + m + Z.of_nat (List.length l)) 0
              else Z.min (a + m) (Z.of_nat (List.length l)))
             - (if (a <? 0)%Z
                then Z.max (a + Z.of_nat (List.length l)) 0
                else Z.min a (Z.of_nat (List.length l))))))
  as [Hi | Hi]; [| discriminate].
rewrite nth_error_skipn in H.
destruct (Z.ltb_spec a 0), (Z.ltb_spec (a + m) 0); try lia.
assert (Hlt : Z.to_nat (Z.min a (Z.of_nat (List.length l))) + i
              < List.length l)
  by (apply nth_error_Some; congruence).
eexists. split; [| exact H]. lia.
Qed.

Lemma length_slice {A} (l : list A) (a m : Z) :
  (0 <= a)%Z -> (0 <= m)%Z ->
  List.length (slice l a (a + m)) <= Z.to_nat m
  /\ List.length (slice l a (a + m)) <= List.length l - Z.to_nat a.
Proof.
intros Ha Hm. unfold slice, clamp.
rewrite length_firstn, length_skipn.
destruct (Z.ltb_spec a 0), (Z.ltb_spec (a + m) 0); lia.
Qed.

Lemma slice_beyond {A} (l : list A) (a b : Z) :
  (Z.of_nat (List.length l) <= a)%Z -> slice l a b = [].
Proof.
intros Ha. unfold slice, clamp.
destruct (Z.ltb_spec a 0) as [H | H]; [lia |].
rewrite skipn_all2 by lia. apply firstn_nil.
Qed.

Section Fetch.
Variable missing : string -> string.

Lemma find_audio_first (entry : Entry) (url : string) :
  find_audio missing (getattr (entry_enclosures entry) []) = Ok (Some url) ->
  first_audio entry url.
Proof.
unfold first_audio.
generalize (getattr (entry_enclosures entry) []). intros encs.
induction encs as [|e rest IH]; intros H; cbn in H; [discriminate |].
destruct (enc_type e) as [ty |] eqn:Ety; cbn in H; [| discriminate].
destruct (startswith ty "audio/") eqn:Est.
- destruct (enc_href e) as [href |] eqn:Eh; cbn in H; [| discriminate].
  injection H as ->.
  exists [], e, rest. repeat split; [constructor | now exists ty | exact Eh].
- destruct (IH H) as (before & enc & after & -> & Hb & Ht & Hh).
  exists (e :: before), enc, after.
  repeat split; [constructor; [now exists ty | exact Hb] | exact Ht | exact Hh].
Qed.

Lemma visit_entry_spec (episodes episodes' : list Episode) (entry : Entry) :
  visit_entry missing episodes entry = Ok episodes' ->
  episodes' = episodes
  \/ exists ep, episodes' = episodes ++ [ep] /\ made_of entry ep.
Proof.
unfold visit_entry. intros H.
destruct (find_audio missing _) as [[url |] | e] eqn:Ef; try discriminate.
- destruct (String.eqb_spec url "") as [-> | Hne].
  + left. congruence.
  + destruct (entry_title entry) as [t |] eqn:Et; cbn in H; [| discriminate].
    injection H as <-. right. eexists. split; [reflexivity |].
    unfold made_of. cbn.
    repeat split; try reflexivity; try assumption.
    now apply find_audio_first.
- left. congruence.
Qed.

Lemma visit_entries_spec (l : list Entry) :
  forall episodes episodes',
    visit_entries missing episodes l = Ok episodes' ->
    exists new,
      episodes' = episodes ++ new
      /\ List.length new <= List.length l
      /\ Forall (fun ep => exists entry, In entry l /\ made_of entry ep) new.
Proof.
induction l as [|entry rest IH]; intros episodes episodes' H; cbn in H.
- injection H as <-. exists []. rewrite app_nil_r. repeat split; auto.
- destruct (visit_entry missing episodes entry) as [mid | e] eqn:Ev;
    [| discriminate].
  destruct (IH _ _ H) as (new & -> & Hlen & Hall).
  assert (Hrest : Forall (fun ep => exists entry0,
                              In entry0 (entry :: rest) /\ made_of entry0 ep)
                         new).
  { eapply Forall_impl; [| exact Hall].
    intros ep (en & Hin & Hm). exists en. split; [now right | exact Hm]. }
  destruct (visit_entry_spec _ _ _ Ev) as [-> | (ep & -> & Hm)].
  + exists new. repeat split; [cbn; lia | exact Hrest].
  + exists (ep :: new). rewrite <- app_assoc. repeat split.
    * cbn. lia.
    * constructor; [| exact Hrest]. exists entry. split; [now left | exact Hm].
Qed.

Lemma fetch_ok (feed : Feed) (max_episodes skip_episodes : Z)
      (episodes : list Episode) :
  fetch_rss_episodes missing feed max_episodes skip_episodes = Ok episodes ->
  bozo feed = false
  /\ visit_entries missing []
       (slice (entries feed) skip_episodes (skip_episodes + max_episodes))
     = Ok episodes.
Proof.
unfold fetch_rss_episodes, fetch_body. intros H.
destruct (bozo feed); [discriminate |].
destruct (visit_entries _ _ _) as [eps | e]; [| discriminate].
split; [reflexivity | congruence].
Qed.

End Fetch.

End RssFacts.

(** X5: when the feed is fetched with a number of episodes to skip and a
    maximum that are not negative, there are at most [max_episodes]
    episodes in the result, and no more than the feed has entries after the
    skipped ones. *)
Theorem fetch_rss_episodes_bound
        (missing : string -> string) (feed : Rss.Feed)
        (max_episodes skip_episodes : Z) (episodes : list Rss.Episode) :
  (0 <= max_episodes)%Z -> (0 <= skip_episodes)%Z ->
  Rss.fetch_rss_episodes missing feed max_episodes skip_episodes
  = Rss.Ok episodes ->
  (Z.of_nat (List.length episodes) <= max_episodes)%Z
  /\ List.length episodes
     <= List.length (Rss.entries feed) - Z.to_nat skip_episodes.
Proof.
intros Hm Hs H.
apply RssFacts.fetch_ok in H as [_ H].
apply RssFacts.visit_entries_spec in H as (new & -> & Hlen & _).
cbn [app].
destruct (RssFacts.length_slice (Rss.entries feed) _ _ Hs Hm) as [H1 H2].
lia.
Qed.

(** Two of the three entries of the sample feed are asked for. *)
Lemma fetch_rss_episodes_bound_witness :
  (Z.of_nat (List.length [Samples.first_episode]) <= 2)%Z
  /\ List.length [Samples.first_episode]
     <= List.length (Rss.entries Samples.feed) - Z.to_nat 0.
Proof.
apply (fetch_rss_episodes_bound Samples.missing Samples.feed 2 0);
  [lia | lia | reflexivity].
Defined.

(** X6: every episode returned comes from an entry of the slice
    [feed.entries[skip_episodes : skip_episodes + max_episodes]], which,
    when neither number is negative, is an entry between the skipped ones
    and the maximum: its audio URL is not empty and is the href of the
    first enclosure of the entry whose type starts with audio/, its title
    is the entry's, and the publication date, the description and the guid
    are the entry's or their defaults: Unknown, the empty string, the
    title. *)
Theorem fetch_rss_episodes_origin
        (missing : string -> string) (feed : Rss.Feed)
        (max_episodes skip_episodes : Z) (episodes : list Rss.Episode) :
  Rss.fetch_rss_episodes missing feed max_episodes skip_episodes
  = Rss.Ok episodes ->
  Forall (fun ep =>
            exists (j : nat) (entry : Rss.Entry),
              nth_error (Rss.entries feed) j = Some entry
              /\ In entry (Py.slice (Rss.entries feed) skip_episodes
                                    (skip_episodes + max_episodes))
              /\ ((0 <= max_episodes)%Z -> (0 <= skip_episodes)%Z ->
                  (skip_episodes <= Z.of_nat j
                   < skip_episodes + max_episodes)%Z)
              /\ Rss.made_of entry ep)
         episodes.
Proof.
intros H.
apply RssFacts.fetch_ok in H as [_ H].
apply RssFacts.visit_entries_spec in H as (new & -> & _ & Hall).
cbn [app]. eapply Forall_impl; [| exact Hall].
intros ep (entry & Hin & Hmade).
destruct (Z_le_dec 0 max_episodes) as [Hm | Hm];
  [destruct (Z_le_dec 0 skip_episodes) as [Hs | Hs] |].
- destruct (RssFacts.in_slice _ _ _ _ Hs Hm Hin) as (j & Hj & Hn).
  exists j, entry.
  split; [exact Hn |]. split; [exact Hin |]. split; [| exact Hmade].
  intros _ _. exact Hj.
- destruct (In_nth_error _ _ (RssFacts.slice_incl _ _ _ _ Hin)) as [j Hn].
  exists j, entry.
  split; [exact Hn |]. split; [exact Hin |]. split; [| exact Hmade].
  intros _ Hs'. contradiction.
- destruct (In_nth_error _ _ (RssFacts.slice_incl _ _ _ _ Hin)) as [j Hn].
  exists j, entry.
  split; [exact Hn |]. split; [exact Hin |]. split; [| exact Hmade].
  intros Hm'. contradiction.
Qed.

(** The episode found among the first two entries of the sample feed. *)
Lemma fetch_rss_episodes_origin_witness :
  Forall (fun ep =>
            exists (j : nat) (entry : Rss.Entry),
              nth_error (Rss.entries Samples.feed) j = Some entry
              /\ In entry (Py.slice (Rss.entries Samples.feed) 0 (0 + 2))
              /\ ((0 <= 2)%Z -> (0 <= 0)%Z -> (0 <= Z.of_nat j < 0 + 2)%Z)
              /\ Rss.made_of entry ep)
         [Samples.first_episode].
Proof.
apply (fetch_rss_episodes_origin Samples.missing Samples.feed 2 0).
reflexivity.
Defined.

(** X7: a feed the parser flags as broken is refused, whatever its
    entries, with the message of the inner error wrapped a second time;
    and skipping at least as many episodes as the feed has gives no
    episode and no error. *)
Theorem fetch_rss_episodes_edges
        (missing : string -> string) (feed : Rss.Feed)
        (max_episodes skip_episodes : Z) :
  (Rss.bozo feed = true ->
   Rss.fetch_rss_episodes missing feed max_episodes skip_episodes
   = Rss.Raise (Rss.ValueError
                  ("Failed to fetch RSS feed: Invalid RSS feed: "
                     ++ Rss.bozo_exception feed)))
  /\ (Rss.bozo feed = false ->
      (Z.of_nat (List.length (Rss.entries feed)) <= skip_episodes)%Z ->
      Rss.fetch_rss_episodes missing feed max_episodes skip_episodes
      = Rss.Ok []).
Proof.
unfold Rss.fetch_rss_episodes, Rss.fetch_body. split.
- intros ->. reflexivity.
- intros -> Hs. now rewrite RssFacts.slice_beyond.
Qed.

(** ** More on the detector *)

Module WindowFacts.
Import Detector DetectorFacts GateFacts.

(** The text after the segment is in the window whenever there is one:
    the test on the length only keeps the index in range. *)
Lemma context_window_eq (segs : list Segment) (i : nat) (segment : Segment) :
  context_window segs i segment
  = (if (0 <? i)%nat then text_at segs (i - 1) else [])
      ++ [seg_text segment] ++ text_at segs (i + 1).
Proof.
unfold context_window. do 2 f_equal.
destruct (Nat.ltb_spec i (List.length segs - 1)) as [H | H]; [reflexivity |].
unfold text_at.
assert (E : nth_error segs (i + 1) = None) by (apply nth_error_None; lia).
now rewrite E.
Qed.

Lemma in_text_at (segs : list Segment) (j : nat) (piece : string) :
  In piece (text_at segs j)
  <-> exists s, nth_error segs j = Some s /\ piece = seg_text s.
Proof.
unfold text_at. destruct (nth_error segs j) as [s |].
- cbn. split.
  + intros [<- | []]. now exists s.
  + intros (s' & E & ->). injection E as ->. now left.
- cbn. split; [tauto | intros (s' & E & _); discriminate].
Qed.

(** The texts of the window are those of the segments at [i - 1], [i] and
    [i + 1]. *)
Lemma in_context_window (segs : list Segment) (i : nat) (segment : Segment)
      (piece : string) :
  nth_error segs i = Some segment ->
  In piece (context_window segs i segment)
  <-> exists j s,
      (j = i \/ j + 1 = i \/ j = i + 1)
      /\ nth_error segs j = Some s /\ piece = seg_text s.
Proof.
intros Hn. rewrite context_window_eq, !in_app_iff. split.
- intros [H | [H | H]].
  + destruct (Nat.ltb_spec 0 i) as [Hi | Hi]; [| contradiction].
    apply in_text_at in H as (s & E & ->).
    exists (i - 1), s. split; [lia | now split].
  + destruct H as [<- | []]. exists i, segment. split; [now left | now split].
  + apply in_text_at in H as (s & E & ->).
    exists (i + 1), s. split; [now right; right | now split].
- intros (j & s & [-> | [<- | ->]] & E & ->).
  + right. left. left. congruence.
  + left.
    replace (0 <? j + 1)%nat with true
      by (symmetry; apply Nat.ltb_lt; lia).
    apply in_text_at. exists s. split; [| reflexivity].
    now replace (j + 1 - 1) with j by lia.
  + right. right. apply in_text_at. now exists s.
Qed.

End WindowFacts.



(** X9: the context score of a segment is 0 or 1, and it is 1 exactly
    when the text of the segment, of the one before it or of the one after
    it has a context word in it, in any case: a word is never made of the
    end of one text and the start of the next. *)
Theorem context_score_neighbours
        (segs : list Segment) (i : nat) (segment : Segment) :
  nth_error segs i = Some segment ->
  context (score_segment segs i segment) <= 1
  /\ (context (score_segment segs i segment) = 1
      <-> exists (j : nat) (s : Segment),
          (j = i \/ j + 1 = i \/ j = i + 1)
          /\ nth_error segs j = Some s
          /\ mentions_context (seg_text s) = true).
Proof.
intros Hn. cbn [score_segment context]. rewrite context_score_window.
destruct (existsb mentions_context (context_window segs i segment)) eqn:E.
- split; [lia |]. split; [intros _ | reflexivity].
  apply existsb_exists in E as (piece & Hin & Hm).
  apply (WindowFacts.in_context_window _ _ _ _ Hn) in Hin
    as (j & s & Hj & Hs & ->).
  now exists j, s.
- split; [lia |]. split; [discriminate |].
  intros (j & s & Hj & Hs & Hm). exfalso.
  assert (E' : existsb mentions_context (context_window segs i segment) = true).
  { apply existsb_exists. exists (seg_text s). split; [| exact Hm].
    apply (WindowFacts.in_context_window _ _ _ _ Hn). now exists j, s. }
  congruence.
Qed.

(** The second segment of the scenario, between "preflop" and "flop". *)
Lemma context_score_neighbours_witness :
  let segs := segments Scenario.transcript in
  context (score_segment segs 1 Scenario.seg2) <= 1
  /\ (context (score_segment segs 1 Scenario.seg2) = 1
      <-> exists (j : nat) (s : Segment),
          (j = 1 \/ j + 1 = 1 \/ j = 1 + 1)
          /\ nth_error segs j = Some s
          /\ mentions_context (seg_text s) = true).
Proof.
apply (context_score_neighbours (segments Scenario.transcript) 1 Scenario.seg2).
reflexivity.
Defined.

(** X10: the scores of a segment depend on the segment and on the texts of
    the segments next to it, and on nothing else of the transcript. *)
Theorem score_segment_local
        (segs1 segs2 : list Segment) (i : nat) (segment : Segment) :
  (forall j, j + 1 = i \/ j = i + 1 ->
             option_map seg_text (nth_error segs1 j)
             = option_map seg_text (nth_error segs2 j)) ->
  score_segment segs1 i segment = score_segment segs2 i segment.
Proof.
intros H. unfold score_segment. f_equal.
unfold context_score. rewrite !WindowFacts.context_window_eq.
assert (Ht : forall j, j + 1 = i \/ j = i + 1 ->
                       text_at segs1 j = text_at segs2 j).
{ intros j Hj. specialize (H j Hj). unfold text_at.
  destruct (nth_error segs1 j), (nth_error segs2 j); cbn in H;
    congruence. }
rewrite (Ht (i + 1)) by now right.
destruct (Nat.ltb_spec 0 i) as [Hi | Hi]; [| reflexivity].
rewrite (Ht (i - 1)) by (left; lia). reflexivity.
Qed.

(** The first segment of the scenario, with a different third segment. *)
Lemma score_segment_local_witness :
  score_segment [Scenario.seg1; Scenario.seg2; Scenario.seg3] 0 Scenario.seg1
  = score_segment [Scenario.seg1; Scenario.seg2; Scenario.seg2] 0 Scenario.seg1.
Proof.
apply score_segment_local.
intros j [Hj | Hj]; [lia |]. subst j. reflexivity.
Defined.

Module ScoreFacts.
Import Re Detector DetectorFacts GateFacts.

Lemma action_score_fold (s : string) (patterns : list regex) :
  forall acc,
    fold_left (fun score pattern =>
                 if search pattern s then score + 1 else score)
              patterns acc
    = acc + List.length (filter (fun p => search p s) patterns).
Proof.
induction patterns as [|p ps IH]; intros acc; cbn [fold_left filter].
- cbn. lia.
- rewrite IH. destruct (search p s); cbn [List.length]; lia.
Qed.

Lemma action_score_count (s : string) :
  action_score s
  = List.length (filter (fun p => search p s) action_patterns).
Proof. unfold action_score, action_score_of. apply action_score_fold. Qed.

Lemma card_score_fold (s : string) (patterns : list regex) :
  forall acc,
    fold_left (fun score pattern => score + findall_len pattern s)
              patterns acc
    = acc + list_sum (map (fun p => findall_len p s) patterns).
Proof.
induction patterns as [|p ps IH]; intros acc; cbn [fold_left map].
- cbn. lia.
- rewrite IH.
  change (list_sum (findall_len p s :: map (fun p => findall_len p s) ps))
    with (findall_len p s + list_sum (map (fun p => findall_len p s) ps)).
  lia.
Qed.

Lemma card_score_sum (patterns : list regex) (s : string) :
  card_score_of patterns s = list_sum (map (fun p => findall_len p s) patterns).
Proof. unfold card_score_of. apply card_score_fold. Qed.

Lemma length_filter_le {A} (f : A -> bool) (l : list A) :
  List.length (filter f l) <= List.length l.
Proof.
induction l as [|x l IH]; cbn; [lia |]. destruct (f x); cbn; lia.
Qed.

(** A pattern is found where [findall] has a match, and only there. *)
Lemma count_from_search (r : regex) (s : string) :
  0 < count_from r s 0 <-> search r s = true.
Proof.
induction s as [|c t IH]; cbn [count_from search];
  destruct (match_here r _ false) as [rest |].
- split; [reflexivity |]. intros _.
  destruct (length "" - length rest); lia.
- split; [lia | discriminate].
- split; [reflexivity |]. intros _.
  destruct (length (String c t) - length rest); lia.
- exact IH.
Qed.

Lemma list_sum_pos {A} (f : A -> nat) (l : list A) :
  1 <= list_sum (map f l) <-> exists x, In x l /\ 0 < f x.
Proof.
induction l as [|x l IH]; cbn [map];
  [| change (list_sum (f x :: map f l)) with (f x + list_sum (map f l))].
- cbn. split; [lia | intros (x & [] & _)].
- split.
  + intros H. destruct (f x) as [|n] eqn:E.
    * cbn in H. apply IH in H as (y & Hin & Hy).
      exists y. split; [now right | exact Hy].
    * exists x. split; [now left | lia].
  + intros (y & [<- | Hin] & Hy); [lia |].
    assert (1 <= list_sum (map f l)) by (apply IH; now exists y). lia.
Qed.

Lemma filter_pos {A} (f : A -> bool) (l : list A) :
  1 <= List.length (filter f l) <-> exists x, In x l /\ f x = true.
Proof.
split.
- intros H. destruct (filter f l) as [|x rest] eqn:E; [cbn in H; lia |].
  exists x. apply filter_In. rewrite E. now left.
- intros (x & Hin & Hx).
  assert (In x (filter f l)) by now apply filter_In.
  destruct (filter f l); [contradiction | cbn; lia].
Qed.

End ScoreFacts.

(** X11: however often the patterns match, the hand-start score is at
    most 14, the action score at most 5 and the context score at most 1:
    a total above 20 is made of card mentions. *)
Theorem score_bounds (segs : list Segment) (i : nat) (segment : Segment) :
  let sc := score_segment segs i segment in
  hand_start sc <= 14 /\ actions sc <= 5 /\ context sc <= 1
  /\ total_score sc <= cards sc + 20.
Proof.
intros sc.
assert (Hh : hand_start sc <= 14).
{ cbn [sc score_segment hand_start]. rewrite hand_start_score_count.
  pose proof (ScoreFacts.length_filter_le
                (fun p => Re.search p (PyStr.lower (seg_text segment)))
                hand_start_patterns) as H.
  change (List.length hand_start_patterns) with 7 in H. lia. }
assert (Ha : actions sc <= 5).
{ cbn [sc score_segment actions]. rewrite ScoreFacts.action_score_count.
  apply (ScoreFacts.length_filter_le
           (fun p => Re.search p (PyStr.lower (seg_text segment)))
           action_patterns). }
assert (Hc : context sc <= 1).
{ cbn [sc score_segment context]. unfold context_score.
  destruct (PyStr.any _ _); lia. }
unfold total_score. lia.
Qed.

(** X12: a segment is promoted only if one of the card patterns or one of
    the hand-start patterns is found in its text in lower case; the card
    score is at least 1 exactly when a card pattern is found, and the
    hand-start score exactly when a hand-start pattern is. *)
Theorem promoted_pattern_found (t : Transcript) (i : nat) (segment : Segment) :
  nth_error (segments t) i = Some segment ->
  let sc := score_segment (segments t) i segment in
  let found := fun p => Re.search p (PyStr.lower (seg_text segment)) = true in
  (1 <= cards sc <-> exists p, In p card_patterns /\ found p)
  /\ (1 <= hand_start sc <-> exists p, In p hand_start_patterns /\ found p)
  /\ (promoted t i segment ->
      exists p, (In p card_patterns \/ In p hand_start_patterns) /\ found p).
Proof.
intros Hn sc found.
assert (Hc : 1 <= cards sc <-> exists p, In p card_patterns /\ found p).
{ cbn [sc score_segment cards]. unfold card_score.
  rewrite ScoreFacts.card_score_sum, ScoreFacts.list_sum_pos.
  split; intros (p & Hin & Hp); exists p; (split; [exact Hin |]);
    now apply ScoreFacts.count_from_search. }
assert (Hh : 1 <= hand_start sc
             <-> exists p, In p hand_start_patterns /\ found p).
{ cbn [sc score_segment hand_start]. rewrite hand_start_score_count.
  pose proof (ScoreFacts.filter_pos
                (fun p => Re.search p (PyStr.lower (seg_text segment)))
                hand_start_patterns) as [H1 H2].
  split; [intros H; apply H1; lia | intros H; apply H2 in H; lia]. }
split; [exact Hc |]. split; [exact Hh |].
intros Hp. apply (promoted_iff t i segment Hn) in Hp.
apply substantial_iff in Hp as [_ [H | H]].
- apply Hc in H as (p & Hin & Hf). exists p. split; [now left | exact Hf].
- apply Hh in H as (p & Hin & Hf). exists p. split; [now right | exact Hf].
Qed.

(** The third segment of the scenario. *)
Lemma promoted_pattern_found_witness :
  let t := Scenario.transcript in
  let sc := score_segment (segments t) 2 Scenario.seg3 in
  let found := fun p =>
    Re.search p (PyStr.lower (seg_text Scenario.seg3)) = true in
  (1 <= cards sc <-> exists p, In p card_patterns /\ found p)
  /\ (1 <= hand_start sc <-> exists p, In p hand_start_patterns /\ found p)
  /\ (promoted t 2 Scenario.seg3 ->
      exists p, (In p card_patterns \/ In p hand_start_patterns) /\ found p).
Proof.
apply (promoted_pattern_found Scenario.transcript 2 Scenario.seg3).
reflexivity.
Defined.

(** ** Letter case *)

Module CaseFacts.
Import Re Detector DetectorNotions DetectorFacts GateFacts PyStrFacts.

Lemma lower_char_idem (c : ascii) :
  PyStr.lower_char (PyStr.lower_char c) = PyStr.lower_char c.
Proof. destruct c as [[] [] [] [] [] [] [] []]; reflexivity. Qed.

Lemma lower_idem (s : string) : PyStr.lower (PyStr.lower s) = PyStr.lower s.
Proof.
induction s as [|c t IH]; cbn; [reflexivity |].
now rewrite lower_char_idem, IH.
Qed.

Lemma text_at_lower (segs : list Segment) (j : nat) :
  text_at (map lower_segment segs) j = map PyStr.lower (text_at segs j).
Proof.
unfold text_at. rewrite nth_error_map.
now destruct (nth_error segs j).
Qed.

Lemma context_window_lower (segs : list Segment) (i : nat) (segment : Segment) :
  context_window (map lower_segment segs) i (lower_segment segment)
  = map PyStr.lower (context_window segs i segment).
Proof.
unfold context_window. rewrite length_map, !map_app, !text_at_lower.
cbn [map lower_segment seg_text].
destruct (0 <? i)%nat, (i <? List.length segs - 1)%nat; reflexivity.
Qed.

Lemma map_lower_idem (l : list string) :
  map PyStr.lower (map PyStr.lower l) = map PyStr.lower l.
Proof.
rewrite map_map. apply map_ext. intros s. apply lower_idem.
Qed.

(** The scores do not see the case of the letters. *)
Lemma score_segment_lower (segs : list Segment) (i : nat) (segment : Segment) :
  score_segment (map lower_segment segs) i (lower_segment segment)
  = score_segment segs i segment.
Proof.
unfold score_segment. cbn [lower_segment seg_text].
rewrite lower_idem. f_equal.
unfold context_score.
rewrite context_window_lower, !lower_join, map_lower_idem. reflexivity.
Qed.

Lemma enumerate_map {A B} (f : A -> B) (l : list A) :
  enumerate (map f l) = map (fun e => (fst e, f (snd e))) (enumerate l).
Proof.
unfold enumerate. rewrite length_map.
generalize 0. induction l as [|x l IH]; intros a; cbn; [reflexivity |].
now rewrite IH.
Qed.

Lemma collect_lower (segs : list Segment) :
  collect (map lower_segment segs) = map lower_hand (collect segs).
Proof.
rewrite !collect_flat_map, enumerate_map.
induction (enumerate segs) as [|[i segment] l IH]; [reflexivity |].
cbn [map flat_map fst snd]. rewrite map_app, IH. f_equal.
unfold promote. cbn [fst snd]. rewrite score_segment_lower.
now destruct (substantial _).
Qed.

(** Sorting goes through a change of the elements that keeps the keys. *)
Lemma sort_desc_map {A} (key : A -> Q) (f : A -> A) (l : list A) :
  (forall x, key (f x) = key x) ->
  sort_desc key (map f l) = map f (sort_desc key l).
Proof.
intros Hk.
assert (Hi : forall x l', insert_desc key (f x) (map f l')
                          = map f (insert_desc key x l')).
{ intros x l'. induction l' as [|y t IH]; [reflexivity |].
  cbn [map insert_desc]. rewrite !Hk.
  destruct (Qle_bool (key y) (key x)); [reflexivity |].
  cbn [map]. now rewrite IH. }
induction l as [|x t IH]; [reflexivity |].
cbn [map sort_desc fold_right]. fold (sort_desc key (map f t)).
fold (sort_desc key t). now rewrite IH, Hi.
Qed.

(** The letters of the rank alternatives are not in a text in lower case. *)
Lemma capless_lower_char (c : ascii) :
  existsb (Ascii.eqb (PyStr.lower_char c)) ["A"; "K"; "Q"; "J"; "T"]%char
  = false.
Proof. destruct c as [[] [] [] [] [] [] [] []]; reflexivity. Qed.

Lemma capless_lower (s : string) : capless (PyStr.lower s) = true.
Proof.
unfold capless. induction s as [|c t IH]; [reflexivity |].
cbn [PyStr.lower list_ascii_of_string forallb].
now rewrite capless_lower_char, IH.
Qed.

Lemma capless_tail (c : ascii) (t : string) :
  capless (String c t) = true -> capless t = true.
Proof.
unfold capless. cbn [list_ascii_of_string forallb].
intros H. now apply andb_prop in H.
Qed.

(** Continuations that agree on the texts without these letters give the
    same matches on such a text. *)
Lemma star_ext (cs : cset) (s : string) (k k' : string -> option string) :
  (forall s', capless s' = true -> k s' = k' s') ->
  capless s = true -> star cs s k = star cs s k'.
Proof.
intros Hk. induction s as [|c t IH]; intros Hs; cbn [star].
- now apply Hk.
- rewrite (Hk _ Hs), IH by now apply capless_tail in Hs. reflexivity.
Qed.

Lemma run_ext (r : regex) :
  forall (s : string) (k k' : string -> option string),
    (forall s', capless s' = true -> k s' = k' s') ->
    capless s = true -> run r s k = run r s k'.
Proof.
induction r as [| cs | r1 IH1 r2 IH2 | r1 IH1 r2 IH2 | r1 IH1 | cs | cs];
  intros s k k' Hk Hs; cbn [run].
- now apply Hk.
- destruct s as [|c t]; [reflexivity |].
  destruct (accepts cs c); [| reflexivity].
  apply Hk. now apply capless_tail in Hs.
- apply IH1; [| exact Hs]. intros s' Hs'. now apply IH2.
- now rewrite (IH1 s k k'), (IH2 s k k').
- now rewrite (IH1 s k k'), (Hk s).
- now apply star_ext.
- destruct s as [|c t]; [reflexivity |].
  destruct (accepts cs c); [| reflexivity].
  apply star_ext; [exact Hk |]. now apply capless_tail in Hs.
Qed.

(** On such a text a rank is a digit. *)
Lemma run_rank (s : string) (k : string -> option string) :
  capless s = true -> run rank s k = run (Chr Digit) s k.
Proof.
intros Hs. destruct s as [|c t]; [reflexivity |].
unfold capless in Hs. cbn [list_ascii_of_string forallb existsb] in Hs.
apply andb_prop in Hs as [Hc _]. apply negb_true_iff in Hc.
repeat (apply orb_false_iff in Hc as [? Hc]).
unfold rank. cbn [alt map lit run accepts].
repeat match goal with H : Ascii.eqb c _ = false |- _ => rewrite H; clear H end.
reflexivity.
Qed.

Lemma run_shorthand (s : string) (k : string -> option string) :
  capless s = true -> run shorthand s k = run digit_pair s k.
Proof.
intros Hs. unfold shorthand, digit_pair. cbn [seq].
change (run (Cat rank ?x) s k) with (run rank s (fun s' => run x s' k)).
cbn [run]. fold (run suit). rewrite run_rank by exact Hs.
cbn [run].
destruct s as [|c t]; [reflexivity |].
destruct (accepts Digit c); [| reflexivity].
apply capless_tail in Hs.
apply (run_ext suit); [| exact Hs]. intros s2 Hs2.
apply star_ext; [| exact Hs2]. intros s3 Hs3.
apply (run_rank s3 _ Hs3).
Qed.

Lemma match_here_shorthand (s : string) (b : bool) :
  capless s = true -> match_here shorthand s b = match_here digit_pair s b.
Proof. intros Hs. unfold match_here. now apply run_shorthand. Qed.

Lemma count_from_shorthand (s : string) :
  capless s = true ->
  forall skip, count_from shorthand s skip = count_from digit_pair s skip.
Proof.
induction s as [|c t IH]; intros Hs skip; cbn [count_from];
  rewrite !(match_here_shorthand _ _ Hs); [reflexivity |].
apply capless_tail in Hs.
destruct skip as [|skip]; [| now apply IH].
destruct (match_here digit_pair (String c t) false) as [rest |];
  [| now apply IH].
destruct (length (String c t) - length rest); [| now rewrite IH].
destruct (match_here digit_pair (String c t) true); now rewrite IH.
Qed.

Lemma card_score_snoc (l : list regex) (p : regex) (s : string) :
  card_score_of (l ++ [p]) s = card_score_of l s + findall_len p s.
Proof. unfold card_score_of. now rewrite fold_left_app. Qed.

End CaseFacts.

(** X13: the case of the letters of the transcript does not matter: with
    the texts of all segments in lower case the same hands are returned in
    the same order, with the same scores, confidence, timestamp and
    duration, and differ only in that they carry the text in lower
    case. *)
Theorem detect_hands_ignores_case (t : Transcript) :
  detect_hands (DetectorNotions.lower_segments t)
  = map DetectorNotions.lower_hand (detect_hands t).
Proof.
unfold detect_hands. cbn [DetectorNotions.lower_segments segments].
rewrite CaseFacts.collect_lower.
now apply CaseFacts.sort_desc_map.
Qed.

(** X14: the capital letters A, K, Q, J and T of the fourth card pattern
    never match, the text being in lower case when it is searched: the
    pattern finds what the pattern of two digits, each with an optional
    suit letter, finds, and the card score is the one the catalogue would
    give with these letters left out. *)
Theorem shorthand_matches_digits_only (segment_text : string) :
  let segment_lower := PyStr.lower segment_text in
  nth_error card_patterns 3 = Some DetectorNotions.shorthand
  /\ Re.findall_len DetectorNotions.shorthand segment_lower
     = Re.findall_len DetectorNotions.digit_pair segment_lower
  /\ card_score segment_lower
     = card_score_of (firstn 3 card_patterns ++ [DetectorNotions.digit_pair])
                     segment_lower.
Proof.
intros segment_lower.
assert (E : Re.findall_len DetectorNotions.shorthand segment_lower
            = Re.findall_len DetectorNotions.digit_pair segment_lower).
{ apply CaseFacts.count_from_shorthand, CaseFacts.capless_lower. }
split; [reflexivity |]. split; [exact E |].
set (others := firstn 3 card_patterns).
change (card_score segment_lower)
  with (card_score_of (others ++ [DetectorNotions.shorthand]) segment_lower).
rewrite !CaseFacts.card_score_snoc. now rewrite E.
Qed.

(** ** More on the report *)

Module PrintFacts.
Import Report PyStrFacts.

(** Formatting sees the value of a number, not how it is written. *)
Lemma round_half_even_comp (x y : Q) :
  (x == y)%Q -> F64.round_half_even x = F64.round_half_even y.
Proof.
intros E. unfold F64.round_half_even.
rewrite (Qfloor_comp _ _ E).
assert (E' : (x - inject_Z (Qfloor y) == y - inject_Z (Qfloor y))%Q)
  by now rewrite E.
now rewrite (Qcompare_comp _ _ E' _ _ (Qeq_refl (1 # 2))).
Qed.

Lemma fixed_comp (p : nat) (x y : Q) :
  (x == y)%Q -> Fmt.fixed p x = Fmt.fixed p y.
Proof.
intros E. unfold Fmt.fixed, F64.is_neg.
assert (E1 : (Qabs x * inject_Z (10 ^ Z.of_nat p)
              == Qabs y * inject_Z (10 ^ Z.of_nat p))%Q) by now rewrite E.
rewrite (round_half_even_comp _ _ E1).
now rewrite (Qleb_comp _ _ (Qeq_refl 0) _ _ E).
Qed.

(** The loop of the report, as a list of entries. *)
Lemma entries_concat (hands : list Hand) :
  forall i,
    entries i hands ""
    = concat "" (map (fun e => entry (fst e) (snd e))
                     (combine (seq i (List.length hands)) hands)).
Proof.
induction hands as [|h hands IH]; intros i; [reflexivity |].
cbn [entries List.length seq combine map fst snd].
rewrite ReportFacts.entries_acc, IH. cbn [append].
destruct (map _ (combine (seq (S i) (List.length hands)) hands)) eqn:E.
- cbn [concat]. apply append_nil_r.
- cbn [concat append]. reflexivity.
Qed.

End PrintFacts.

(** X15: the confidence of a hand returned is one of 3/8, 4/8, 5/8, 6/8,
    7/8 and 1, and the report prints it as 0.38, 0.50, 0.62, 0.75, 0.88 or
    1.00: the halves are rounded to the even digit. *)
Theorem printed_confidence (t : Transcript) (h : Hand) :
  In h (detect_hands t) ->
  exists k : nat,
    3 <= k <= 8
    /\ k = Nat.min 8 (total_score (scores h))
    /\ (confidence h == inject_Z (Z.of_nat k) / 8)%Q
    /\ nth_error ["0.38"; "0.50"; "0.62"; "0.75"; "0.88"; "1.00"] (k - 3)
       = Some (Fmt.fixed 2 (confidence h)).
Proof.
intros Hin. destruct (returned_hand t h Hin) as [Hs Hc].
apply substantial_iff in Hs as [Hs _].
rewrite Hc. set (n := total_score (scores h)) in *. clearbody n.
exists (Nat.min 8 n).
destruct (Nat.lt_ge_cases n 8) as [Hn | Hn].
- rewrite Nat.min_r by lia.
  split; [lia |]. split; [reflexivity |].
  split; [now apply confidence_of_small |].
  rewrite (PrintFacts.fixed_comp 2 _ _ (confidence_of_small n Hn)).
  do 3 (destruct n as [|n]; [lia |]).
  do 5 (destruct n as [|n]; [reflexivity |]).
  lia.
- rewrite Nat.min_l by lia.
  split; [lia |]. split; [reflexivity |].
  split; [now rewrite confidence_of_large |].
  now rewrite (PrintFacts.fixed_comp 2 _ _ (confidence_of_large n Hn)).
Qed.

(** The first hand of the scenario: 5/8, printed 0.62. *)
Lemma printed_confidence_witness :
  let h := hand_of Scenario.seg1
             (score_segment (segments Scenario.transcript) 0 Scenario.seg1) in
  exists k : nat,
    3 <= k <= 8
    /\ k = Nat.min 8 (total_score (scores h))
    /\ (confidence h == inject_Z (Z.of_nat k) / 8)%Q
    /\ nth_error ["0.38"; "0.50"; "0.62"; "0.75"; "0.88"; "1.00"] (k - 3)
       = Some (Fmt.fixed 2 (confidence h)).
Proof.
apply (printed_confidence Scenario.transcript).
vm_compute. left. reflexivity.
Defined.

(** X16: the report is made for every list of hands, also for one that
    [detect_hands] did not return: the average never divides by zero; and
    it is the header and the summary with the number of hands, followed
    by one entry for each hand, in the order of the list, numbered from
    1. *)
Theorem report_structure (t : Transcript) (hands : list Hand) :
  exists avg : Q,
    Report.avg_confidence hands = Some avg
    /\ Report.report_content t hands
       = Some (Report.head t (List.length hands) avg
               ++ concat "" (map (fun e => Report.entry (fst e) (snd e))
                                 (combine (seq 1 (List.length hands)) hands))
              )%string.
Proof.
destruct (ReportFacts.avg_confidence_defined hands) as [avg Ha].
exists avg. split; [exact Ha |].
unfold Report.report_content. rewrite Ha.
now rewrite ReportFacts.entries_acc, PrintFacts.entries_concat.
Qed.
